(** * NeuroMetric-Live: calibration tracker and sensor-fusion status

    A shallow embedding of the two pieces of front-end logic that carry
    state: the [CalibrationSystem] object (calibration script) and the
    liveness / fusion badge logic of [updateDashboard] (dashboard.js).

    Numbers.  JavaScript numbers are modelled as rationals ([Q]).  The only
    arithmetic the tracker performs on [progress] is [+ 1] and [- 0.5] from
    [0], so every stored value is a multiple of one half of magnitude at
    most 151, where IEEE double arithmetic is exact.  The percentage
    [progress / 150 * 100] is rounded in the browser; on every multiple of
    one half between 0 and 151 the rounded value and the exact one fall on
    the same side of the thresholds 33 and 66 (49.5 gives exactly 33 and 99
    gives exactly 66).  NaN is not modelled: every comparison with it is
    false, which is the behaviour of a value below all thresholds.

    Effects.  The page elements the code writes to are an explicit [Dom]
    record inside the state; dialogs, toasts and network requests are
    returned as a list of [Event]s.  The operator's reply to [confirm] and
    the draw of [Math.random] are inputs of the calls that consult them. *)

From Stdlib Require Import QArith Qminmax Qround Lqa Lia ZArith.
From Stdlib Require Import List String Ascii Bool Arith.
From Stdlib Require Import Decimal DecimalString.
Import ListNotations.

Local Open Scope string_scope.
Local Open Scope Q_scope.

(** ** JavaScript values *)

(** [x > y] and [x >= y] on numbers. *)
Definition gt (x y : Q) : bool := negb (Qle_bool x y).
Definition ge (x y : Q) : bool := Qle_bool y x.

(** [String.prototype.toLowerCase] on the ASCII range.  No character
    outside A-Z lower-cases to a letter of the word neutral, so the
    comparison made by [processFrame] is not affected by the rest of
    Unicode. *)
Definition lower_ascii (c : ascii) : ascii :=
  let n := nat_of_ascii c in
  if ((65 <=? n) && (n <=? 90))%nat then ascii_of_nat (n + 32) else c.

Fixpoint toLowerCase (s : string) : string :=
  match s with
  | EmptyString => EmptyString
  | String c r => String (lower_ascii c) (toLowerCase r)
  end.

(** Truthiness of a value that is a string, [null] or [undefined]. *)
Definition truthy (v : option string) : bool :=
  match v with
  | None => false
  | Some s => negb (s =? "")%string
  end.

(** ** Data model of the calibration script *)

Inductive Phase := focus | neutral | relax.

(** [imagePool]: one list of image paths per phase; a key may be missing
    from the JSON the server returns. *)
Record ImagePool := {
  pool_focus : option (list string);
  pool_neutral : option (list string);
  pool_relax : option (list string)
}.

Definition pool_of (pools : ImagePool) (ph : Phase) : option (list string) :=
  match ph with
  | focus => pool_focus pools
  | neutral => pool_neutral pools
  | relax => pool_relax pools
  end.

(** The progress bar: inline width (a percentage) and the three colour
    classes the script toggles.  The width is held as the exact
    percentage where the browser stores its rounding to a double; the
    properties compare it with 0 and 100 only, which the rounding does not
    disturb. *)
Record Bar := {
  bar_width : Q;
  bg_info : bool;
  bg_warning : bool;
  bg_danger : bool
}.

Record Timer := {
  timer_text : string;
  timer_color : string
}.

(** The elements behind [CalibrationSystem.elements].  An element the
    script null-checks is optional; [display-id] is dereferenced without a
    check (here and in dashboard.js) and is taken to exist. *)
Record Dom := {
  guide : option bool;            (* calibration-guide; [Some true] = hidden (d-none) *)
  bar : option Bar;               (* calib-progress *)
  timer : option Timer;           (* calib-timer *)
  image : option (option string); (* calib-image-display and its src attribute *)
  activeId : string               (* innerText of display-id *)
}.

(** The singleton object together with the page it acts on. *)
Record World := {
  isActive : bool;
  progress : Q;
  imagePool : ImagePool;
  page : Dom
}.

Definition targetPoints : Q := 150.

(** What leaves the page: a toast, the confirmation dialog, the POST to
    /api/calibrate-done. *)
Inductive Event :=
| Toast (text : string)
| Confirm (msg : string)
| Post (subject_id : string) (apply_update : bool) (learning_rate : Q).

Definition initial (d : Dom) : World :=
  {| isActive := false;
     progress := 0;
     imagePool := {| pool_focus := Some []; pool_neutral := Some [];
                     pool_relax := Some [] |};
     page := d |}.

(** ** Page updates *)

Definition set_guide (hidden : bool) (d : Dom) : Dom :=
  match guide d with
  | None => d
  | Some _ =>
      {| guide := Some hidden; bar := bar d; timer := timer d;
         image := image d; activeId := activeId d |}
  end.

Definition set_bar (f : Bar -> Bar) (d : Dom) : Dom :=
  match bar d with
  | None => d
  | Some b =>
      {| guide := guide d; bar := Some (f b); timer := timer d;
         image := image d; activeId := activeId d |}
  end.

Definition set_timer (t : Timer) (d : Dom) : Dom :=
  match timer d with
  | None => d
  | Some _ =>
      {| guide := guide d; bar := bar d; timer := Some t;
         image := image d; activeId := activeId d |}
  end.

Definition set_src (s : option string) (d : Dom) : Dom :=
  match image d with
  | None => d
  | Some _ =>
      {| guide := guide d; bar := bar d; timer := timer d;
         image := Some s; activeId := activeId d |}
  end.

(** [updateUI(text, color, percent)]. *)
Definition updateUI (text color : string) (percent : option Q) (d : Dom) : Dom :=
  let d1 := set_timer {| timer_text := text; timer_color := color |} d in
  match percent with
  | None => d1
  | Some p =>
      set_bar (fun b => {| bar_width := p; bg_info := bg_info b;
                           bg_warning := bg_warning b;
                           bg_danger := bg_danger b |}) d1
  end.

(** ** Stimulus selection (the body of [updateStimuli]) *)

(** Lines 122-131: the phase and its caption. *)
Definition selectPhase (percent : Q) : Phase :=
  if ge percent 33 && negb (ge percent 66) then neutral
  else if ge percent 66 then relax
  else focus.

Definition phase_label (ph : Phase) : string :=
  match ph with
  | focus => "Phase 1: Focus on the Target"
  | neutral => "Phase 2: Maintain Empty Mind"
  | relax => "Phase 3: Deep Relaxation"
  end.

(** [pool.includes(currentSrc)]; [getAttribute] gives [null] when the
    attribute is not set, which no path equals. *)
Definition includes (pool : list string) (currentSrc : option string) : bool :=
  match currentSrc with
  | None => false
  | Some s => existsb (String.eqb s) pool
  end.

(** [Math.floor(Math.random() * pool.length)] for the draw [rnd]. *)
Definition random_index (rnd : Q) (len : nat) : nat :=
  Z.to_nat (Qfloor (rnd * inject_Z (Z.of_nat len))).

(** Lines 133-139: the src attribute after the selection.  Indexing past
    the end yields [undefined], which the attribute stores as text. *)
Definition proposeAsset (pool : option (list string))
    (currentSrc : option string) (rnd : Q) : option string :=
  match pool with
  | Some (a :: rest) =>
      let l := a :: rest in
      if includes l currentSrc then currentSrc
      else Some (nth (random_index rnd (List.length l)) l "undefined")
  | _ => currentSrc
  end.

Definition updateStimuli (pools : ImagePool) (rnd percent : Q) (d : Dom) : Dom :=
  match image d with
  | None => d
  | Some currentSrc =>
      let ph := selectPhase percent in
      let d1 := set_src (proposeAsset (pool_of pools ph) currentSrc rnd) d in
      updateUI (phase_label ph) "#28a745" (Some percent) d1
  end.

(** ** The operations of [CalibrationSystem] *)

(** [init]: the pool is replaced when the server answers with a pool. *)
Definition init (response : option ImagePool) (w : World) : World * list Event :=
  match response with
  | Some pools =>
      ({| isActive := isActive w; progress := progress w;
          imagePool := pools; page := page w |}, [])
  | None => (w, [])
  end.

Definition start (rnd : Q) (w : World) : World * list Event :=
  if isActive w then (w, [])
  else if (activeId (page w) =? "STANDBY")%string then
    (w, [Toast "Notice: Please SELECT a subject from the database first!"])
  else
    let d1 := set_guide false (page w) in
    let d2 := updateStimuli (imagePool w) rnd 0 d1 in
    let d3 := updateUI "Waiting for Neutral Face..." "#17a2b8" (Some 0) d2 in
    ({| isActive := true; progress := 0;
        imagePool := imagePool w; page := d3 |}, []).

Definition newline : string := String (ascii_of_nat 10) EmptyString.

Definition confirmMsg (activeSubject : string) : string :=
  "Calibration Complete for " ++ activeSubject ++ "." ++ newline ++ newline
  ++ "Apply a 0.001 adaptive update to the neural baseline?".

(** [complete]: [shouldUpdate] is what the operator answers to the dialog.
    The toast of the response handler runs after the call has returned and
    is not part of it. *)
Definition complete (shouldUpdate : bool) (w : World) : World * list Event :=
  let activeSubject := activeId (page w) in
  ({| isActive := false; progress := progress w;
      imagePool := imagePool w; page := set_guide true (page w) |},
   [Confirm (confirmMsg activeSubject);
    Post activeSubject shouldUpdate (1 # 1000)]).

Definition stop (w : World) : World * list Event :=
  ({| isActive := false; progress := progress w;
      imagePool := imagePool w; page := set_guide true (page w) |}, []).

(** The logic gate of line 79. *)
Definition is_hold (faceEmotion : option string) (faceConf : Q) : bool :=
  match faceEmotion with
  | None => false
  | Some s =>
      truthy (Some s) && (toLowerCase s =? "neutral")%string
      && gt faceConf (1 # 2)
  end.

Definition bar_hold (b : Bar) : Bar :=
  {| bar_width := bar_width b; bg_info := true;
     bg_warning := false; bg_danger := false |}.

Definition bar_pause (b : Bar) : Bar :=
  {| bar_width := bar_width b; bg_info := false;
     bg_warning := bg_warning b; bg_danger := true |}.

Definition processFrame (faceEmotion : option string) (faceConf : Q)
    (rnd : Q) (shouldUpdate : bool) (w : World) : World * list Event :=
  if negb (isActive w) then (w, [])
  else
    match image (page w) with
    | None => (w, [])
    | Some _ =>
        if is_hold faceEmotion faceConf then
          let p := progress w + 1 in
          let percent := (p / targetPoints) * 100 in
          let d1 := updateStimuli (imagePool w) rnd percent (page w) in
          let d2 := set_bar bar_hold d1 in
          let w1 := {| isActive := isActive w; progress := p;
                       imagePool := imagePool w; page := d2 |} in
          if ge p targetPoints then complete shouldUpdate w1 else (w1, [])
        else
          let p := if gt (progress w) 0 then progress w - (1 # 2)
                   else progress w in
          let percent := Qmax 0 ((p / targetPoints) * 100) in
          let d1 := updateUI "Paused: Keep Face Neutral!" "#dc3545"
                             (Some percent) (page w) in
          let d2 := set_bar bar_pause d1 in
          ({| isActive := isActive w; progress := p;
              imagePool := imagePool w; page := d2 |}, [])
    end.

(** ** Call sequences *)

(** One camera frame: the classifier's verdict, and the two inputs the
    call may consult (the random draw, the operator's reply). *)
Record Frame := {
  faceEmotion : option string;
  faceConf : Q;
  draw : Q;
  reply : bool
}.

Inductive Call :=
| CallInit (response : option ImagePool)
| CallStart (rnd : Q)
| CallProcessFrame (f : Frame)
| CallStop
| CallComplete (shouldUpdate : bool).

Definition frame_step (f : Frame) (w : World) : World * list Event :=
  processFrame (faceEmotion f) (faceConf f) (draw f) (reply f) w.

Definition step (c : Call) (w : World) : World * list Event :=
  match c with
  | CallInit r => init r w
  | CallStart rnd => start rnd w
  | CallProcessFrame f => frame_step f w
  | CallStop => stop w
  | CallComplete b => complete b w
  end.

Fixpoint run (cs : list Call) (w : World) : World * list Event :=
  match cs with
  | [] => (w, [])
  | c :: rest =>
      let (w1, e1) := step c w in
      let (w2, e2) := run rest w1 in
      (w2, (e1 ++ e2)%list)
  end.

Definition run_frames (fs : list Frame) (w : World) : World * list Event :=
  run (map CallProcessFrame fs) w.

(** The states the object can be in: the object literal on some page,
    followed by any calls. *)
Inductive reachable : World -> Prop :=
| reach_initial : forall d, reachable (initial d)
| reach_step : forall c w, reachable w -> reachable (fst (step c w)).

(** Every invocation of [complete] opens exactly one confirmation dialog. *)
Definition is_confirm (e : Event) : bool :=
  match e with Confirm _ => true | _ => false end.

Definition completions (es : list Event) : nat :=
  List.length (filter is_confirm es).

Definition frame_is_hold (f : Frame) : bool :=
  is_hold (faceEmotion f) (faceConf f).

(** A page with every element present, used for concrete runs. *)
Definition demo_page : Dom :=
  {| guide := Some true;
     bar := Some {| bar_width := 0; bg_info := false;
                    bg_warning := false; bg_danger := false |};
     timer := Some {| timer_text := ""; timer_color := "" |};
     image := Some None;
     activeId := "S001" |}.

Definition hold_frame : Frame :=
  {| faceEmotion := Some "Neutral"; faceConf := 8 # 10;
     draw := 0; reply := true |}.

Definition lapse_frame : Frame :=
  {| faceEmotion := Some "happy"; faceConf := 9 # 10;
     draw := 0; reply := true |}.

(** ** The poll tick of dashboard.js *)

(** The part of the /api/live payload the fusion panel reads.  [data.eeg]
    and [data.fusion] are dereferenced without a check; [data.face] and
    the two fields tested for truthiness may be missing. *)
Record EegSample := {
  raw_sample : option (list Q);
  eeg_emotion : string
}.

Record FaceSample := {
  face_emotion : option string;
  face_conf : Q
}.

Record Fusion := {
  fusion_emotion : string;
  fusion_match : bool
}.

Record LiveData := {
  eeg : EegSample;
  face : option FaceSample;
  fusion : Fusion
}.

(** Line 232.  An empty array has no element 0, and [undefined !== 0]. *)
Definition eegActive (data : LiveData) : bool :=
  match raw_sample (eeg data) with
  | None => false
  | Some [] => true
  | Some (x :: _) => negb (Qeq_bool x 0)
  end.

(** Line 233. *)
Definition faceActive (data : LiveData) : bool :=
  match face data with
  | None => false
  | Some f =>
      match face_emotion f with
      | None => false
      | Some e => truthy (Some e) && negb (e =? "None")%string
      end
  end.

(** What the fusion panel shows: the waiting panel, or the active panel
    with one of the four badge texts (SENSORS AGREE, DISSENT DETECTED,
    CAMERA ONLY MODE, EEG ONLY MODE). *)
Inductive FusionVerdict :=
| BothAgree | BothDissent | FaceOnly | SignalOnly | Waiting.

(** Lines 295-326. *)
Definition fusionVerdict (data : LiveData) : FusionVerdict :=
  if eegActive data || faceActive data then
    if eegActive data && faceActive data then
      if fusion_match (fusion data) then BothAgree else BothDissent
    else if faceActive data then FaceOnly
    else SignalOnly
  else Waiting.

(** Modelled from the spec: the server-side computation of
    [data.fusion.match], which is not among the front-end sources.  The
    spec declares agreement when the two modality labels match
    case-insensitively. *)
Definition backend_match (face_label eeg_label : string) : bool :=
  (toLowerCase face_label =? toLowerCase eeg_label)%string.

Definition face_label (data : LiveData) : string :=
  match face data with
  | Some f => match face_emotion f with Some e => e | None => "" end
  | None => ""
  end.

(** A payload whose match flag is the one the server computes from the
    two labels it sends. *)
Definition served (data : LiveData) : Prop :=
  fusion_match (fusion data)
  = backend_match (face_label data) (eeg_emotion (eeg data)).

(** ** Case-insensitive equality, stated independently of [toLowerCase] *)

Definition is_upper (c : ascii) : Prop :=
  (65 <= nat_of_ascii c <= 90)%nat.

(** Two characters are the same letter when they are equal or one is the
    capital of the other. *)
Definition same_letter (a b : ascii) : Prop :=
  a = b
  \/ (is_upper a /\ nat_of_ascii b = (nat_of_ascii a + 32)%nat)
  \/ (is_upper b /\ nat_of_ascii a = (nat_of_ascii b + 32)%nat).

Inductive ci_eq : string -> string -> Prop :=
| ci_eq_nil : ci_eq "" ""
| ci_eq_cons : forall a b s t,
    same_letter a b -> ci_eq s t -> ci_eq (String a s) (String b t).

(** A page that lacks the image element, and a session started on it. *)
Definition bare_page : Dom :=
  {| guide := Some true; bar := bar demo_page; timer := timer demo_page;
     image := None; activeId := "S001" |}.

Definition bare_world : World := fst (start 0 (initial bare_page)).

(** ** Concrete sessions *)

(** Start, 149 holds, one lapse, two holds. *)
Definition overshoot_calls : list Call :=
  CallStart 0
  :: map CallProcessFrame
       (repeat hold_frame 149 ++ [lapse_frame; hold_frame; hold_frame])%list.

(** Start, one hold, stop. *)
Definition aborted_calls : list Call :=
  [CallStart 0; CallProcessFrame hold_frame; CallStop].

(** ** Concrete poll payloads *)

Definition live_eeg (label : string) : EegSample :=
  {| raw_sample := Some [12 # 1; 0; 3 # 1; 0; 0; 0; 0; 0];
     eeg_emotion := label |}.

Definition agreeing_payload : LiveData :=
  {| eeg := live_eeg "happy";
     face := Some {| face_emotion := Some "Happy"; face_conf := 9 # 10 |};
     fusion := {| fusion_emotion := "happy";
                  fusion_match := backend_match "Happy" "happy" |} |}.

(** The length of a run of frames, as a number. *)
Definition count (n : nat) : Q := inject_Z (Z.of_nat n).

(** ** Further notions for the calibration script *)

(** Whether an optional element exists. *)
Definition present {A : Type} (o : option A) : bool :=
  match o with Some _ => true | None => false end.

(** Two pages with the same elements and the same subject label. *)
Definition same_elements (d d' : Dom) : Prop :=
  present (guide d') = present (guide d)
  /\ present (bar d') = present (bar d)
  /\ present (timer d') = present (timer d)
  /\ present (image d') = present (image d)
  /\ activeId d' = activeId d.

(** The order in which the phases follow each other. *)
Definition phase_rank (ph : Phase) : nat :=
  match ph with focus => 0 | neutral => 1 | relax => 2 end.

Definition is_init (c : Call) : bool :=
  match c with CallInit (Some _) => true | _ => false end.

(** A page whose subject label still is the placeholder. *)
Definition standby_page : Dom :=
  {| guide := Some true; bar := bar demo_page; timer := timer demo_page;
     image := Some None; activeId := "STANDBY" |}.

Definition demo_pools : ImagePool :=
  {| pool_focus := Some ["f1.png"; "f2.png"];
     pool_neutral := Some ["n1.png"];
     pool_relax := None |}.

(** ** Further parts of dashboard.js *)

(** [Number.prototype.toString] on a natural number. *)
Definition toString (n : nat) : string :=
  NilZero.string_of_uint (Nat.to_uint n).

Fixpoint repeat_char (n : nat) (c : ascii) : string :=
  match n with
  | O => EmptyString
  | S k => String c (repeat_char k c)
  end.

(** [s.padStart(targetLength, c)] for a padding string of one character. *)
Definition padStart (targetLength : nat) (c : ascii) (s : string) : string :=
  repeat_char (targetLength - String.length s) c ++ s.

(** [getLiveTimestamp], as a function of the four readings it takes from
    the clock. *)
Definition getLiveTimestamp (hours minutes seconds milliseconds : nat) : string :=
  padStart 2 "0" (toString hours) ++ ":"
  ++ padStart 2 "0" (toString minutes) ++ ":"
  ++ padStart 2 "0" (toString seconds) ++ "."
  ++ toString (milliseconds / 100).

(** The character of a decimal digit. *)
Definition digit (d : nat) : ascii := ascii_of_nat (48 + d).

(** [s.includes(q)] on strings. *)
Fixpoint str_includes (s q : string) : bool :=
  String.prefix q s
  || match s with
     | EmptyString => false
     | String _ r => str_includes r q
     end.

(** A row of the subject table: its text and its inline display style. *)
Record Row := {
  innerText : string;
  display : string
}.

(** Text made of ASCII characters only. *)
Fixpoint ascii_text (s : string) : bool :=
  match s with
  | EmptyString => true
  | String c r => (nat_of_ascii c <? 128)%nat && ascii_text r
  end.

(** [filterSubjects], for the text of the search box and the rows of the
    table.  [toLowerCase] folds the letters A-Z only, so the definition
    stands for the code on ASCII text; the properties below assume
    [ascii_text] of the query and of the rows. *)
Definition filterSubjects (searchValue : string) (rows : list Row) : list Row :=
  let query := toLowerCase searchValue in
  map (fun row =>
         let rowText := toLowerCase (innerText row) in
         {| innerText := innerText row;
            display := if str_includes rowText query then "" else "none" |})
      rows.

(** [data.session] of the poll payload. *)
Record Session := {
  subject_id : option string
}.

(** Lines 227-229 of [updateDashboard]: a session activated elsewhere is
    taken over when no subject is shown yet. *)
Definition adoptRemoteSubject (session : option Session) (d : Dom) : Dom :=
  match session with
  | None => d
  | Some s =>
      match subject_id s with
      | None => d
      | Some sid =>
          if truthy (Some sid) && (activeId d =? "STANDBY")%string then
            {| guide := guide d; bar := bar d; timer := timer d;
               image := image d; activeId := sid |}
          else d
      end
  end.

Definition on_page (f : Dom -> Dom) (w : World) : World :=
  {| isActive := isActive w; progress := progress w;
     imagePool := imagePool w; page := f (page w) |}.

Definition upper_ascii (c : ascii) : ascii :=
  let n := nat_of_ascii c in
  if ((97 <=? n) && (n <=? 122))%nat then ascii_of_nat (n - 32) else c.

Fixpoint toUpperCase (s : string) : string :=
  match s with
  | EmptyString => EmptyString
  | String c r => String (upper_ascii c) (toUpperCase r)
  end.

(** The fusion-heartbeat element: its text and the three classes the poll
    touches. *)
Record Heartbeat := {
  hb_text : string;
  hb_blink : bool;
  hb_dark : bool;
  hb_danger : bool
}.

(** The elements of the fusion panel. *)
Record FusionPanel := {
  active_hidden : bool;   (* fusion-active-ui has d-none *)
  waiting_hidden : bool;  (* fusion-waiting-ui has d-none *)
  fusion_val : string;
  heartbeat : Heartbeat;
  badge_text : string;    (* match-status *)
  badge_class : string
}.

(** [classList.replace(old, new)] on two tracked classes: nothing happens
    when the old class is not there. *)
Definition replace_class (has_old has_new : bool) : bool * bool :=
  if has_old then (false, true) else (has_old, has_new).

(** Lines 295-326 of [updateDashboard]; [ts] is the timestamp of the
    tick.  This is the update itself; [fusionTick] below says on which
    ticks the callback gets this far. *)
Definition updateFusionUI (ts : string) (data : LiveData) (p : FusionPanel)
    : FusionPanel :=
  let h := heartbeat p in
  if eegActive data || faceActive data then
    let h' :=
      if eegActive data && faceActive data then
        let (dark, danger) := replace_class (hb_dark h) (hb_danger h) in
        {| hb_text := "SYNC: " ++ ts; hb_blink := true;
           hb_dark := dark; hb_danger := danger |}
      else
        let (danger, dark) := replace_class (hb_danger h) (hb_dark h) in
        {| hb_text := "AWAITING EEG"; hb_blink := false;
           hb_dark := dark; hb_danger := danger |} in
    let (text, class) :=
      if eegActive data && faceActive data then
        if fusion_match (fusion data)
        then ("SENSORS AGREE", "badge bg-success px-3 py-2 mt-2")
        else ("DISSENT DETECTED", "badge bg-danger px-3 py-2 mt-2")
      else if faceActive data
      then ("CAMERA ONLY MODE", "badge bg-info text-dark px-3 py-2 mt-2")
      else ("EEG ONLY MODE", "badge bg-warning text-dark px-3 py-2 mt-2") in
    {| active_hidden := false; waiting_hidden := true;
       fusion_val := toUpperCase (fusion_emotion (fusion data));
       heartbeat := h'; badge_text := text; badge_class := class |}
  else
    {| active_hidden := true; waiting_hidden := false;
       fusion_val := fusion_val p; heartbeat := h;
       badge_text := badge_text p; badge_class := badge_class p |}.

(** The badge text that stands for each verdict. *)
Definition verdict_text (v : FusionVerdict) : option string :=
  match v with
  | BothAgree => Some "SENSORS AGREE"
  | BothDissent => Some "DISSENT DETECTED"
  | FaceOnly => Some "CAMERA ONLY MODE"
  | SignalOnly => Some "EEG ONLY MODE"
  | Waiting => None
  end.

(** [data.eeg.metrics]. *)
Record Metrics := {
  valence : Q;
  arousal : Q;
  stress : Q
}.

(** [metricHistory]: the three series of the metrics chart. *)
Record MetricHistory := {
  hist_v : list Q;
  hist_a : list Q;
  hist_s : list Q
}.

(** [l.push(x); l.shift()]. *)
Definition push_shift {A : Type} (x : A) (l : list A) : list A :=
  tl (l ++ [x])%list.

(** Lines 274-277: the history moves only on a tick with a live signal. *)
Definition updateMetricHistory (data : LiveData) (m : Metrics)
    (h : MetricHistory) : MetricHistory :=
  if eegActive data then
    {| hist_v := push_shift (valence m) (hist_v h);
       hist_a := push_shift (arousal m) (hist_a h);
       hist_s := push_shift (stress m) (hist_s h) |}
  else h.

(** A sequence of poll ticks, oldest first. *)
Fixpoint pollMetrics (ticks : list (LiveData * Metrics)) (h : MetricHistory)
    : MetricHistory :=
  match ticks with
  | [] => h
  | (data, m) :: rest => pollMetrics rest (updateMetricHistory data m h)
  end.

(** A poll tick as far as the fusion panel is concerned; [metrics] is
    [data.eeg.metrics], which may be missing from the payload.  On a tick
    with a live signal lines 274-282 read the fields of the metrics before
    the panel is reached: without metrics the callback throws there and
    lines 289-326 do not run ([None]: the panel stays as it was).  The
    labels and numbers that [LiveData] and [Metrics] hold are present by
    their types, and the elements and chart calls of lines 235-287 are
    taken to be in order. *)
Definition fusionTick (ts : string) (data : LiveData)
    (metrics : option Metrics) (p : FusionPanel) : option FusionPanel :=
  if eegActive data && negb (present metrics) then None
  else Some (updateFusionUI ts data p).

(** The panel before the first live tick. *)
Definition idle_panel : FusionPanel :=
  {| active_hidden := true; waiting_hidden := false; fusion_val := "";
     heartbeat := {| hb_text := ""; hb_blink := false;
                     hb_dark := true; hb_danger := false |};
     badge_text := ""; badge_class := "" |}.

Definition demo_metrics : Metrics :=
  {| valence := 1 # 2; arousal := 1 # 4; stress := 0 |}.

(** The history the page starts with: forty zeros per series. *)
Definition initialHistory : MetricHistory :=
  {| hist_v := repeat 0 40; hist_a := repeat 0 40; hist_s := repeat 0 40 |}.

Definition silent_payload : LiveData :=
  {| eeg := {| raw_sample := Some [0; 0; 0; 0; 0; 0; 0; 0];
               eeg_emotion := "neutral" |};
     face := None;
     fusion := {| fusion_emotion := "neutral"; fusion_match := false |} |}.

(** ** Invariant of the tracker *)

(** [progress] is a whole number of half points. *)
Definition half_integral (q : Q) : Prop := exists k : Z, q == k # 2.

Definition tracker_inv (w : World) : Prop :=
  half_integral (progress w)
  /\ 0 <= progress w
  /\ progress w <= targetPoints + (1 # 2)
  /\ (isActive w = true -> progress w < targetPoints).

(** * Properties *)

(** ** Comparisons *)

Lemma gt_true : forall x y, gt x y = true <-> y < x.
Proof.
  intros x y. unfold gt. rewrite negb_true_iff.
  split; intro H.
  - apply Qnot_le_lt. intro L. apply Qle_bool_iff in L. congruence.
  - destruct (Qle_bool x y) eqn:E; [|reflexivity].
    apply Qle_bool_iff in E. lra.
Qed.

Lemma gt_false : forall x y, gt x y = false <-> x <= y.
Proof.
  intros x y. unfold gt. rewrite negb_false_iff. apply Qle_bool_iff.
Qed.

Lemma ge_true : forall x y, ge x y = true <-> y <= x.
Proof. intros x y. unfold ge. apply Qle_bool_iff. Qed.

Lemma ge_false : forall x y, ge x y = false <-> x < y.
Proof.
  intros x y. unfold ge. split; intro H.
  - apply Qnot_le_lt. intro L. apply Qle_bool_iff in L. congruence.
  - destruct (Qle_bool y x) eqn:E; [|reflexivity].
    apply Qle_bool_iff in E. lra.
Qed.

(** ** Phase selection *)

(** C7.  [selectPhase] sends the range [0,33) to focus, [33,66) to neutral
    and [66,100] to relax; at the boundary values 32.9, 33, 65.9, 66 and
    100 it gives focus, neutral, neutral, relax and relax. *)
Theorem selectPhase_ranges : forall percent,
  (0 <= percent -> percent < 33 -> selectPhase percent = focus) /\
  (33 <= percent -> percent < 66 -> selectPhase percent = neutral) /\
  (66 <= percent -> percent <= 100 -> selectPhase percent = relax) /\
  selectPhase (329 # 10) = focus /\
  selectPhase 33 = neutral /\
  selectPhase (659 # 10) = neutral /\
  selectPhase 66 = relax /\
  selectPhase 100 = relax.
Proof.
  intro percent. unfold selectPhase.
  repeat split; try reflexivity; intros H1 H2.
  - assert (E : ge percent 33 = false) by (apply ge_false; lra).
    assert (F : ge percent 66 = false) by (apply ge_false; lra).
    rewrite E, F. reflexivity.
  - assert (E : ge percent 33 = true) by (apply ge_true; lra).
    assert (F : ge percent 66 = false) by (apply ge_false; lra).
    rewrite E, F. reflexivity.
  - assert (F : ge percent 66 = true) by (apply ge_true; lra).
    rewrite F. rewrite andb_false_r. reflexivity.
Qed.

Lemma selectPhase_ranges_witness :
  selectPhase 10 = focus /\ selectPhase 50 = neutral /\ selectPhase 80 = relax.
Proof.
  split; [|split].
  - apply (proj1 (selectPhase_ranges 10)); lra.
  - apply (proj1 (proj2 (selectPhase_ranges 50))); lra.
  - apply (proj1 (proj2 (proj2 (selectPhase_ranges 80)))); lra.
Defined.

(** ** Asset selection *)

Lemma includes_true : forall l cur,
  includes l cur = true <-> exists s, cur = Some s /\ In s l.
Proof.
  intros l [s|]; simpl.
  - rewrite existsb_exists. split.
    + intros [x [Hin Heq]]. apply String.eqb_eq in Heq. subst x.
      exists s. split; [reflexivity | assumption].
    + intros [s' [Hs Hin]]. inversion Hs; subst s'.
      exists s. split; [assumption | apply String.eqb_refl].
  - split; [discriminate | intros [s [Hs _]]; discriminate].
Qed.

Lemma random_index_in_range : forall rnd len,
  0 <= rnd -> rnd < 1 -> (0 < len)%nat -> (random_index rnd len < len)%nat.
Proof.
  intros rnd len H0 H1 Hlen. unfold random_index.
  set (L := inject_Z (Z.of_nat len)).
  assert (HL : 0 < L).
  { unfold L. replace 0 with (inject_Z 0) by reflexivity.
    rewrite <- Zlt_Qlt. lia. }
  assert (Hup : rnd * L < L).
  { assert (rnd * L < 1 * L) by (apply Qmult_lt_compat_r; assumption). lra. }
  assert (Hlo : 0 <= rnd * L) by (apply Qmult_le_0_compat; lra).
  assert (Hf : (Qfloor (rnd * L) < Z.of_nat len)%Z).
  { rewrite Zlt_Qlt. fold L.
    apply Qle_lt_trans with (rnd * L); [apply Qfloor_le | assumption]. }
  assert (Hg : (0 <= Qfloor (rnd * L))%Z).
  { replace 0%Z with (Qfloor 0) by reflexivity.
    apply Qfloor_resp_le. assumption. }
  lia.
Qed.

(** C9.  The asset selection keeps the displayed asset when the pool of the
    phase is missing or empty, and when the displayed asset already belongs
    to that pool; otherwise the new asset is an element of the pool.  The
    selection is a total function, so an empty pool cannot make it fail;
    [updateStimuli] stores its result as the src of the image element. *)
Theorem proposeAsset_spec : forall pools ph cur rnd,
  0 <= rnd -> rnd < 1 ->
  (pool_of pools ph = None \/ pool_of pools ph = Some [] ->
   proposeAsset (pool_of pools ph) cur rnd = cur) /\
  (forall l s, pool_of pools ph = Some l -> cur = Some s -> In s l ->
   proposeAsset (pool_of pools ph) cur rnd = cur) /\
  (forall l, pool_of pools ph = Some l -> l <> [] ->
   (forall s, cur = Some s -> ~ In s l) ->
   exists a, proposeAsset (pool_of pools ph) cur rnd = Some a /\ In a l) /\
  (forall d percent, image d = Some cur ->
   image (updateStimuli pools rnd percent d)
   = Some (proposeAsset (pool_of pools (selectPhase percent)) cur rnd)).
Proof.
  intros pools ph cur rnd H0 H1. repeat split.
  - intros [E|E]; rewrite E; reflexivity.
  - intros l s El Ec Hin. rewrite El. unfold proposeAsset.
    destruct l as [|a rest]; [reflexivity|].
    assert (I : includes (a :: rest) cur = true).
    { apply includes_true. exists s. split; assumption. }
    rewrite I. reflexivity.
  - intros l El Hne Hout. rewrite El. unfold proposeAsset.
    destruct l as [|a rest]; [congruence|].
    destruct (includes (a :: rest) cur) eqn:I.
    + apply includes_true in I. destruct I as [s [Hs Hin]].
      exfalso. exact (Hout s Hs Hin).
    + eexists. split; [reflexivity|].
      apply nth_In. apply random_index_in_range; simpl; auto; lia.
  - intros d percent Hd. unfold updateStimuli. rewrite Hd.
    unfold updateUI, set_bar, set_timer, set_src. rewrite Hd. simpl.
    destruct (timer d); simpl; destruct (bar d); reflexivity.
Qed.

Lemma proposeAsset_spec_witness :
  exists a,
    proposeAsset (Some ["a.png"; "b.png"; "c.png"]) (Some "x.png") (1 # 2)
    = Some a /\ In a ["a.png"; "b.png"; "c.png"].
Proof.
  pose (pools := {| pool_focus := Some ["a.png"; "b.png"; "c.png"];
                    pool_neutral := None; pool_relax := Some [] |}).
  assert (A : 0 <= 1 # 2) by lra.
  assert (B : 1 # 2 < 1) by lra.
  refine (proj1 (proj2 (proj2
            (proposeAsset_spec pools focus (Some "x.png") (1 # 2) A B)))
          ["a.png"; "b.png"; "c.png"] eq_refl _ _).
  - discriminate.
  - intros s Hs [E|[E|[E|[]]]]; congruence.
Defined.

(** ** The image-element guard *)

Lemma processFrame_no_image : forall emotion conf rnd answer w,
  image (page w) = None ->
  processFrame emotion conf rnd answer w = (w, []).
Proof.
  intros emotion conf rnd answer w H. unfold processFrame.
  rewrite H. destruct (isActive w); reflexivity.
Qed.

(** ** Case-insensitive comparison *)

Lemma nat_of_lower_ascii : forall c,
  nat_of_ascii (lower_ascii c)
  = if ((65 <=? nat_of_ascii c) && (nat_of_ascii c <=? 90))%nat
    then (nat_of_ascii c + 32)%nat else nat_of_ascii c.
Proof.
  intro c. unfold lower_ascii.
  destruct ((65 <=? nat_of_ascii c) && (nat_of_ascii c <=? 90))%nat eqn:E;
    [|reflexivity].
  apply andb_true_iff in E. destruct E as [E1 E2].
  apply Nat.leb_le in E1. apply Nat.leb_le in E2.
  apply nat_ascii_embedding. lia.
Qed.

Lemma nat_of_ascii_inj : forall a b, nat_of_ascii a = nat_of_ascii b -> a = b.
Proof.
  intros a b H. rewrite <- (ascii_nat_embedding a), <- (ascii_nat_embedding b).
  rewrite H. reflexivity.
Qed.

Lemma lower_ascii_same : forall a b,
  lower_ascii a = lower_ascii b <-> same_letter a b.
Proof.
  intros a b. unfold same_letter, is_upper. split.
  - intro H. apply (f_equal nat_of_ascii) in H.
    rewrite !nat_of_lower_ascii in H.
    destruct (65 <=? nat_of_ascii a)%nat eqn:A1;
      destruct (nat_of_ascii a <=? 90)%nat eqn:A2;
      destruct (65 <=? nat_of_ascii b)%nat eqn:B1;
      destruct (nat_of_ascii b <=? 90)%nat eqn:B2; simpl in H;
      repeat match goal with
             | E : (_ <=? _)%nat = true |- _ => apply Nat.leb_le in E
             | E : (_ <=? _)%nat = false |- _ => apply Nat.leb_gt in E
             end;
      try (left; apply nat_of_ascii_inj; lia);
      try (right; left; lia); try (right; right; lia).
  - intro H. apply nat_of_ascii_inj. rewrite !nat_of_lower_ascii.
    destruct H as [H|[[U H]|[U H]]].
    + subst b. reflexivity.
    + rewrite H.
      destruct (65 <=? nat_of_ascii a)%nat eqn:A1;
        destruct (nat_of_ascii a <=? 90)%nat eqn:A2;
        destruct (65 <=? nat_of_ascii a + 32)%nat eqn:B1;
        destruct (nat_of_ascii a + 32 <=? 90)%nat eqn:B2; simpl;
        repeat match goal with
               | E : (_ <=? _)%nat = true |- _ => apply Nat.leb_le in E
               | E : (_ <=? _)%nat = false |- _ => apply Nat.leb_gt in E
               end; lia.
    + rewrite H.
      destruct (65 <=? nat_of_ascii b)%nat eqn:A1;
        destruct (nat_of_ascii b <=? 90)%nat eqn:A2;
        destruct (65 <=? nat_of_ascii b + 32)%nat eqn:B1;
        destruct (nat_of_ascii b + 32 <=? 90)%nat eqn:B2; simpl;
        repeat match goal with
               | E : (_ <=? _)%nat = true |- _ => apply Nat.leb_le in E
               | E : (_ <=? _)%nat = false |- _ => apply Nat.leb_gt in E
               end; lia.
Qed.

Lemma toLowerCase_ci_eq : forall s t,
  toLowerCase s = toLowerCase t <-> ci_eq s t.
Proof.
  induction s as [|a s IH]; intros [|b t]; simpl.
  - split; [constructor | reflexivity].
  - split; [discriminate | intro H; inversion H].
  - split; [discriminate | intro H; inversion H].
  - split.
    + intro H. injection H as Hc Hr. constructor.
      * apply lower_ascii_same. assumption.
      * apply IH. assumption.
    + intro H. inversion H; subst. f_equal.
      * apply lower_ascii_same. assumption.
      * apply IH. assumption.
Qed.

Lemma is_hold_iff : forall emotion conf,
  is_hold emotion conf = true
  <-> (exists s, emotion = Some s /\ ci_eq s "neutral") /\ 1 # 2 < conf.
Proof.
  intros [s|] conf; unfold is_hold.
  - rewrite !andb_true_iff, gt_true, String.eqb_eq.
    change "neutral" with (toLowerCase "neutral") at 1.
    rewrite toLowerCase_ci_eq. split.
    + intros [[_ H] C]. split; [exists s; split; [reflexivity|assumption] | assumption].
    + intros [[s' [E H]] C]. inversion E; subst s'. split; [split|]; try assumption.
      unfold truthy. destruct s; [inversion H | reflexivity].
  - split; [discriminate | intros [[s [E _]] _]; discriminate].
Qed.

(** ** What [processFrame] does to the tracker fields *)

Lemma processFrame_inactive : forall emotion conf rnd answer w,
  isActive w = false -> processFrame emotion conf rnd answer w = (w, []).
Proof.
  intros emotion conf rnd answer w H. unfold processFrame.
  rewrite H. reflexivity.
Qed.

Lemma processFrame_progress : forall emotion conf rnd answer w,
  isActive w = true -> image (page w) <> None ->
  progress (fst (processFrame emotion conf rnd answer w))
  = if is_hold emotion conf then progress w + 1
    else if gt (progress w) 0 then progress w - (1 # 2) else progress w.
Proof.
  intros emotion conf rnd answer w Ha Hi. unfold processFrame.
  rewrite Ha. simpl negb. cbv iota.
  destruct (image (page w)); [|congruence].
  destruct (is_hold emotion conf).
  - destruct (ge (progress w + 1) targetPoints); reflexivity.
  - reflexivity.
Qed.

Lemma processFrame_isActive : forall emotion conf rnd answer w,
  isActive w = true -> image (page w) <> None ->
  isActive (fst (processFrame emotion conf rnd answer w))
  = negb (is_hold emotion conf && ge (progress w + 1) targetPoints).
Proof.
  intros emotion conf rnd answer w Ha Hi. unfold processFrame.
  rewrite Ha. simpl negb. cbv iota.
  destruct (image (page w)); [|congruence].
  destruct (is_hold emotion conf).
  - destruct (ge (progress w + 1) targetPoints); simpl; auto.
  - simpl. auto.
Qed.

Lemma processFrame_events : forall emotion conf rnd answer w,
  isActive w = true -> image (page w) <> None ->
  snd (processFrame emotion conf rnd answer w)
  = if is_hold emotion conf && ge (progress w + 1) targetPoints
    then [Confirm (confirmMsg (activeId (page w)));
          Post (activeId (page w)) answer (1 # 1000)]
    else [].
Proof.
  intros emotion conf rnd answer w Ha Hi. unfold processFrame.
  rewrite Ha. simpl negb. cbv iota.
  destruct (image (page w)) as [src|] eqn:Ei; [|congruence].
  destruct (is_hold emotion conf); [|reflexivity].
  destruct (ge (progress w + 1) targetPoints); [|reflexivity].
  simpl. unfold updateStimuli. rewrite Ei.
  unfold updateUI, set_bar, set_timer, set_src. rewrite Ei. simpl.
  destruct (timer (page w)); simpl; destruct (bar (page w)); reflexivity.
Qed.

(** No operation adds or removes the image element. *)
Lemma updateStimuli_image_none : forall pools rnd percent d,
  image (updateStimuli pools rnd percent d) = None <-> image d = None.
Proof.
  intros pools rnd percent d. unfold updateStimuli.
  destruct (image d) as [src|] eqn:E; [|rewrite E; tauto].
  unfold updateUI, set_bar, set_timer, set_src. rewrite E. simpl.
  destruct (timer d); simpl; destruct (bar d); simpl;
    split; discriminate.
Qed.

Lemma updateUI_image : forall text color percent d,
  image (updateUI text color percent d) = image d.
Proof.
  intros text color percent d. unfold updateUI, set_bar, set_timer.
  destruct percent; destruct (timer d); simpl; try reflexivity;
    destruct (bar d); reflexivity.
Qed.

Lemma set_bar_image : forall f d, image (set_bar f d) = image d.
Proof. intros f d. unfold set_bar. destruct (bar d); reflexivity. Qed.

Lemma set_guide_image : forall h d, image (set_guide h d) = image d.
Proof. intros h d. unfold set_guide. destruct (guide d); reflexivity. Qed.

Lemma processFrame_image_none : forall emotion conf rnd answer w,
  image (page (fst (processFrame emotion conf rnd answer w))) = None
  <-> image (page w) = None.
Proof.
  intros emotion conf rnd answer w.
  destruct (isActive w) eqn:Ha;
    [|rewrite processFrame_inactive by assumption; tauto].
  destruct (image (page w)) as [src|] eqn:E;
    [|rewrite processFrame_no_image by assumption; simpl; rewrite E; tauto].
  unfold processFrame. rewrite Ha, E. cbn [negb].
  destruct (is_hold emotion conf).
  - destruct (ge (progress w + 1) targetPoints); unfold complete;
      cbn [fst page];
      rewrite ?set_guide_image, set_bar_image, updateStimuli_image_none, E;
      split; discriminate.
  - cbn [fst page]. rewrite set_bar_image, updateUI_image, E.
    split; discriminate.
Qed.

(** The two early returns of [processFrame].  [early_returns w Ha Hi tac]
    closes the inactive case and the case without image element with
    [tac], and leaves the case that reaches the logic gate. *)
Ltac early_returns w Ha Hi tac :=
  destruct (isActive w) eqn:Ha;
    [|rewrite processFrame_inactive by assumption; tac];
  [destruct (image (page w)) as [?src|] eqn:Hi;
     [|rewrite processFrame_no_image by assumption; tac]].

(** ** The invariant *)

Lemma half_integral_succ : forall q, half_integral q -> half_integral (q + 1).
Proof.
  intros q [k Hk]. exists (k + 2)%Z. rewrite Hk.
  unfold Qeq, Qplus. simpl. lia.
Qed.

Lemma half_integral_pred : forall q,
  half_integral q -> half_integral (q - (1 # 2)).
Proof.
  intros q [k Hk]. exists (k - 1)%Z. rewrite Hk.
  unfold Qeq, Qminus, Qplus, Qopp. simpl. lia.
Qed.

Lemma half_integral_below : forall q,
  half_integral q -> q < targetPoints -> q + 1 <= targetPoints + (1 # 2).
Proof.
  intros q [k Hk] H. rewrite Hk in *. unfold targetPoints in *.
  unfold Qlt, Qle, Qplus in *. simpl in *. lia.
Qed.

Lemma half_integral_positive : forall q,
  half_integral q -> 0 < q -> 0 <= q - (1 # 2).
Proof.
  intros q [k Hk] H. rewrite Hk in *.
  unfold Qlt, Qle, Qminus, Qplus, Qopp in *. simpl in *. lia.
Qed.

Lemma processFrame_inv : forall emotion conf rnd answer w,
  tracker_inv w -> tracker_inv (fst (processFrame emotion conf rnd answer w)).
Proof.
  intros emotion conf rnd answer w Hinv.
  early_returns w Ha Ei ltac:(exact Hinv).
  assert (Hi : image (page w) <> None) by congruence.
  destruct Hinv as [Hh [H0 [Hmax Hact]]]. specialize (Hact Ha).
  unfold tracker_inv.
  rewrite processFrame_progress, processFrame_isActive by assumption.
  destruct (is_hold emotion conf); simpl.
  - split; [apply half_integral_succ; assumption|].
    split; [lra|].
    split; [apply half_integral_below; assumption|].
    rewrite negb_true_iff. apply ge_false.
  - destruct (gt (progress w) 0) eqn:G.
    + apply gt_true in G.
      split; [apply half_integral_pred; assumption|].
      split; [apply half_integral_positive; assumption|].
      split; [unfold targetPoints in *; lra|].
      intros _. lra.
    + split; [assumption|]. split; [assumption|]. split; [assumption|].
      intros _. assumption.
Qed.

Lemma step_inv : forall c w, tracker_inv w -> tracker_inv (fst (step c w)).
Proof.
  intros c w Hinv. destruct c as [r|rnd|f| |b]; simpl.
  - destruct r; simpl; exact Hinv.
  - unfold start. destruct (isActive w) eqn:Ha; [exact Hinv|].
    destruct (activeId (page w) =? "STANDBY")%string; [exact Hinv|].
    simpl. unfold tracker_inv, targetPoints. simpl.
    split; [exists 0%Z; reflexivity|]. repeat split; lra.
  - apply processFrame_inv. assumption.
  - destruct Hinv as [Hh [H0 [Hmax Hact]]]. unfold tracker_inv. simpl.
    repeat split; try assumption. discriminate.
  - destruct Hinv as [Hh [H0 [Hmax Hact]]]. unfold tracker_inv. simpl.
    repeat split; try assumption. discriminate.
Qed.

Lemma reachable_inv : forall w, reachable w -> tracker_inv w.
Proof.
  induction 1 as [d|c w Hr IH].
  - unfold tracker_inv, targetPoints. simpl.
    split; [exists 0%Z; reflexivity|]. repeat split; lra.
  - apply step_inv. assumption.
Qed.

Lemma run_reachable : forall cs w, reachable w -> reachable (fst (run cs w)).
Proof.
  induction cs as [|c cs IH]; intros w Hr; simpl.
  - assumption.
  - destruct (step c w) as [w1 e1] eqn:E1.
    specialize (IH w1). destruct (run cs w1) as [w2 e2]. simpl in *.
    apply IH. replace w1 with (fst (step c w)) by (rewrite E1; reflexivity).
    apply reach_step. assumption.
Qed.

(** ** Bounds on progress *)

(** C1, as the code has it.  In every reachable state progress is at least
    0 and at most targetPoints + 0.5, and it is below targetPoints whenever
    a session is active.  The increment of a hold frame is not capped: from
    149.5 it gives 150.5. *)
Theorem progress_bounds : forall w,
  reachable w ->
  0 <= progress w
  /\ progress w <= targetPoints + (1 # 2)
  /\ (isActive w = true -> progress w < targetPoints).
Proof.
  intros w Hr. destruct (reachable_inv w Hr) as [_ H]. exact H.
Qed.

Lemma progress_bounds_witness :
  0 <= progress (fst (step (CallStart 0) (initial demo_page)))
  /\ progress (fst (step (CallStart 0) (initial demo_page)))
     <= targetPoints + (1 # 2)
  /\ (isActive (fst (step (CallStart 0) (initial demo_page))) = true ->
      progress (fst (step (CallStart 0) (initial demo_page))) < targetPoints).
Proof.
  apply (progress_bounds (fst (step (CallStart 0) (initial demo_page)))).
  apply reach_step. apply reach_initial.
Defined.

(** C1 fails as stated: the session [overshoot_calls] ends in a reachable
    state whose progress is 150.5, above targetPoints. *)
Lemma progress_exceeds_target :
  reachable (fst (run overshoot_calls (initial demo_page)))
  /\ progress (fst (run overshoot_calls (initial demo_page))) == 301 # 2
  /\ ~ progress (fst (run overshoot_calls (initial demo_page))) <= targetPoints.
Proof.
  split; [apply run_reachable; apply reach_initial|].
  split.
  - vm_compute. reflexivity.
  - vm_compute. intro H. apply H. reflexivity.
Qed.

(** ** Teardown *)

Lemma set_guide_activeId : forall h d, activeId (set_guide h d) = activeId d.
Proof. intros h d. unfold set_guide. destruct (guide d); reflexivity. Qed.

(** C2, as the code has it.  After [stop] or [complete] the session is
    inactive and progress still has the value it had before the teardown;
    it is 0 again once the next [start] succeeds. *)
Theorem teardown_then_restart : forall w answer rnd,
  (isActive (fst (stop w)) = false
   /\ progress (fst (stop w)) = progress w)
  /\ (isActive (fst (complete answer w)) = false
      /\ progress (fst (complete answer w)) = progress w)
  /\ (activeId (page w) <> "STANDBY" ->
      (isActive (fst (start rnd (fst (stop w)))) = true
       /\ progress (fst (start rnd (fst (stop w)))) = 0)
      /\ (isActive (fst (start rnd (fst (complete answer w)))) = true
          /\ progress (fst (start rnd (fst (complete answer w)))) = 0)).
Proof.
  intros w answer rnd.
  split; [split; reflexivity|]. split; [split; reflexivity|].
  intro Hs. apply String.eqb_neq in Hs.
  unfold start, stop, complete. cbn [fst isActive page].
  rewrite set_guide_activeId, Hs. split; split; reflexivity.
Qed.

Lemma teardown_then_restart_witness :
  isActive (fst (start 0 (fst (stop (fst (run aborted_calls (initial demo_page))))))) = true
  /\ progress (fst (start 0 (fst (stop (fst (run aborted_calls (initial demo_page))))))) = 0.
Proof.
  refine (proj1 (proj2 (proj2
    (teardown_then_restart (fst (run aborted_calls (initial demo_page)))
       true 0)) _)).
  vm_compute. discriminate.
Defined.

(** C2 fails as stated: after start, one hold and [stop], the session is
    inactive and progress is 1. *)
Lemma stop_keeps_progress :
  isActive (fst (run aborted_calls (initial demo_page))) = false
  /\ ~ progress (fst (run aborted_calls (initial demo_page))) == 0.
Proof.
  split.
  - vm_compute. reflexivity.
  - vm_compute. discriminate.
Qed.

(** ** Redundant transitions *)

Lemma run_frames_inactive : forall fs w,
  isActive w = false -> run_frames fs w = (w, []).
Proof.
  unfold run_frames. induction fs as [|f fs IH]; intros w H; simpl.
  - reflexivity.
  - unfold frame_step. rewrite processFrame_inactive by assumption.
    rewrite IH by assumption. reflexivity.
Qed.

Lemma set_guide_same : forall h d,
  guide d = Some h \/ guide d = None -> set_guide h d = d.
Proof.
  intros h d H. unfold set_guide. destruct d as [g b t i a]. simpl in *.
  destruct H as [H|H]; subst g; reflexivity.
Qed.

(** C3, as the code has it.  [start] during an active session changes
    nothing and emits nothing.  In an inactive state, [stop] emits nothing,
    leaves the active flag, progress and pool as they are and only hides
    the guide again (no change at all when it is hidden already or
    absent); [complete] also leaves the active flag and progress as they
    are, but it still opens the confirmation dialog and posts the outcome;
    any sequence of [processFrame] calls leaves the whole state unchanged
    and emits nothing, so progress stays 0 when it was 0.  A second [stop]
    right after a [stop] changes nothing. *)
Theorem redundant_transitions : forall w,
  (isActive w = true -> forall rnd, start rnd w = (w, []))
  /\ (isActive w = false ->
      (snd (stop w) = []
       /\ isActive (fst (stop w)) = isActive w
       /\ progress (fst (stop w)) = progress w
       /\ imagePool (fst (stop w)) = imagePool w
       /\ page (fst (stop w)) = set_guide true (page w))
      /\ (guide (page w) = Some true \/ guide (page w) = None ->
          stop w = (w, []))
      /\ (forall answer,
          isActive (fst (complete answer w)) = isActive w
          /\ progress (fst (complete answer w)) = progress w
          /\ snd (complete answer w)
             = [Confirm (confirmMsg (activeId (page w)));
                Post (activeId (page w)) answer (1 # 1000)])
      /\ (forall fs, run_frames fs w = (w, []))
      /\ (forall fs, progress w == 0 ->
          progress (fst (run_frames fs w)) == 0))
  /\ stop (fst (stop w)) = (fst (stop w), []).
Proof.
  intro w. split; [|split].
  - intros Ha rnd. unfold start. rewrite Ha. reflexivity.
  - intro Ha. split; [|split; [|split; [|split]]].
    + simpl. rewrite Ha. repeat split; reflexivity.
    + intro Hg. unfold stop. rewrite set_guide_same by assumption.
      destruct w as [a p pools d]. simpl in Ha. subst a. reflexivity.
    + intro answer. simpl. rewrite Ha. repeat split; reflexivity.
    + intro fs. apply run_frames_inactive. assumption.
    + intros fs H0. rewrite run_frames_inactive by assumption. exact H0.
  - unfold stop. cbn [fst isActive progress imagePool page].
    rewrite (set_guide_same true (set_guide true (page w))); [reflexivity|].
    unfold set_guide. destruct (guide (page w)) eqn:Eg; simpl; auto.
Qed.

Lemma redundant_transitions_witness :
  start 0 (fst (start 0 (initial demo_page)))
  = (fst (start 0 (initial demo_page)), [])
  /\ run_frames [hold_frame; lapse_frame; hold_frame] (initial demo_page)
     = (initial demo_page, [])
  /\ stop (initial demo_page) = (initial demo_page, []).
Proof.
  split; [|split].
  - apply (proj1 (redundant_transitions (fst (start 0 (initial demo_page))))).
    reflexivity.
  - apply (proj1 (proj2 (redundant_transitions (initial demo_page)))).
    reflexivity.
  - apply (proj1 (proj2 (redundant_transitions (initial demo_page)))).
    + reflexivity.
    + left. reflexivity.
Defined.

(** C3 fails as stated: [complete] on the freshly loaded, inactive object
    opens the dialog and sends the request. *)
Lemma complete_while_inactive_emits :
  isActive (initial demo_page) = false
  /\ snd (complete true (initial demo_page))
     = [Confirm (confirmMsg "S001"); Post "S001" true (1 # 1000)]
  /\ snd (complete true (initial demo_page)) <> [].
Proof.
  split; [reflexivity|]. split; [reflexivity|]. discriminate.
Qed.

(** ** Frames of an active session *)

(** C4, as the code has it.  For a frame that reaches the logic gate (the
    session is active and the image element is present): the frame is a
    hold exactly when its label equals neutral up to letter case and its
    confidence exceeds 0.5; a hold adds exactly 1 to progress; any other
    frame takes 0.5 from progress, stopping at 0. *)
Theorem processFrame_active_frame : forall w emotion conf rnd answer,
  reachable w -> isActive w = true -> image (page w) <> None ->
  (is_hold emotion conf = true
   <-> (exists s, emotion = Some s /\ ci_eq s "neutral") /\ 1 # 2 < conf)
  /\ (is_hold emotion conf = true ->
      progress (fst (processFrame emotion conf rnd answer w))
      == progress w + 1)
  /\ (is_hold emotion conf = false ->
      progress (fst (processFrame emotion conf rnd answer w))
      == Qmax 0 (progress w - (1 # 2))).
Proof.
  intros w emotion conf rnd answer Hr Ha Hi.
  split; [apply is_hold_iff|].
  rewrite processFrame_progress by assumption.
  split; intro H; rewrite H; [reflexivity|].
  destruct (reachable_inv w Hr) as [Hh [H0 _]].
  destruct (gt (progress w) 0) eqn:G.
  - apply gt_true in G.
    pose proof (half_integral_positive _ Hh G) as Hp.
    rewrite Q.max_r by assumption. reflexivity.
  - apply gt_false in G.
    rewrite Q.max_l by lra. lra.
Qed.

Lemma processFrame_active_frame_witness :
  progress (fst (processFrame (Some "NeuTral") (6 # 10) 0 true
                   (fst (start 0 (initial demo_page)))))
  == progress (fst (start 0 (initial demo_page))) + 1.
Proof.
  refine (proj1 (proj2
    (processFrame_active_frame (fst (start 0 (initial demo_page)))
       (Some "NeuTral") (6 # 10) 0 true _ _ _)) _).
  - apply (reach_step (CallStart 0)). apply reach_initial.
  - reflexivity.
  - simpl. discriminate.
  - reflexivity.
Defined.

(** C4 fails as stated: in a session started on a page without the image
    element, a hold frame leaves progress at 0. *)
Lemma hold_without_image_keeps_progress :
  reachable bare_world
  /\ isActive bare_world = true
  /\ is_hold (Some "neutral") (9 # 10) = true
  /\ ~ progress (fst (processFrame (Some "neutral") (9 # 10) 0 true bare_world))
       == progress bare_world + 1.
Proof.
  split; [apply (reach_step (CallStart 0)); apply reach_initial|].
  split; [reflexivity|]. split; [reflexivity|].
  vm_compute. discriminate.
Qed.

(** ** Runs of frames *)

Lemma run_frames_cons : forall f fs w,
  run_frames (f :: fs) w
  = (fst (run_frames fs (fst (frame_step f w))),
     (snd (frame_step f w) ++ snd (run_frames fs (fst (frame_step f w))))%list).
Proof.
  intros f fs w. unfold run_frames. simpl.
  destruct (frame_step f w) as [w1 e1]. simpl.
  destruct (run (map CallProcessFrame fs) w1) as [w2 e2]. reflexivity.
Qed.

Lemma run_frames_app_state : forall fs gs w,
  fst (run_frames (fs ++ gs) w) = fst (run_frames gs (fst (run_frames fs w))).
Proof.
  induction fs as [|f fs IH]; intros gs w.
  - reflexivity.
  - rewrite <- app_comm_cons, !run_frames_cons. simpl. apply IH.
Qed.

Lemma run_frames_without_image : forall fs w,
  image (page w) = None -> run_frames fs w = (w, []).
Proof.
  induction fs as [|f fs IH]; intros w H.
  - reflexivity.
  - rewrite run_frames_cons. unfold frame_step.
    rewrite processFrame_no_image by assumption. simpl.
    rewrite IH by assumption. reflexivity.
Qed.

(** C10.  When the calibration image element is absent, [processFrame]
    returns at once: the whole state (progress, active flag, page) is
    unchanged and nothing is emitted, for hold and non-hold frames alike,
    also during an active session; the same holds for any run of frames. *)
Theorem processFrame_without_image : forall emotion conf rnd answer w,
  image (page w) = None ->
  processFrame emotion conf rnd answer w = (w, [])
  /\ forall fs, run_frames fs w = (w, []).
Proof.
  intros emotion conf rnd answer w H. split.
  - apply processFrame_no_image. assumption.
  - intro fs. apply run_frames_without_image. assumption.
Qed.

Lemma processFrame_without_image_witness :
  processFrame (Some "neutral") (9 # 10) 0 true bare_world = (bare_world, [])
  /\ processFrame (Some "sad") (9 # 10) 0 true bare_world = (bare_world, []).
Proof.
  split.
  - apply (proj1 (processFrame_without_image (Some "neutral") (9 # 10) 0 true
                    bare_world eq_refl)).
  - apply (proj1 (processFrame_without_image (Some "sad") (9 # 10) 0 true
                    bare_world eq_refl)).
Defined.

Lemma frame_step_stays_inactive : forall f w,
  isActive (fst (frame_step f w)) = true -> isActive w = true.
Proof.
  intros f w H. destruct (isActive w) eqn:Ha; [reflexivity|].
  unfold frame_step in H. rewrite processFrame_inactive in H by assumption.
  simpl in H. congruence.
Qed.

(** ** Accumulation against decay *)

Lemma count_succ : forall n, count (S n) == count n + 1.
Proof.
  intro n. unfold count. rewrite Nat2Z.inj_succ. unfold Z.succ.
  rewrite inject_Z_plus. reflexivity.
Qed.

Lemma count_nonneg : forall n, 0 <= count n.
Proof.
  intro n. unfold count. replace 0 with (inject_Z 0) by reflexivity.
  rewrite <- Zle_Qle. lia.
Qed.

Lemma hold_step_progress : forall f w,
  frame_is_hold f = true ->
  progress w <= progress (fst (frame_step f w))
  /\ (isActive w = true -> image (page w) <> None ->
      progress (fst (frame_step f w)) == progress w + 1).
Proof.
  intros f w Hf. unfold frame_is_hold in Hf. unfold frame_step.
  early_returns w Ha Ei ltac:(simpl; split; [lra | congruence]).
  rewrite processFrame_progress by congruence. rewrite Hf.
  split; [lra | intros; reflexivity].
Qed.

Lemma lapse_step_progress : forall f w,
  progress w - (1 # 2) <= progress (fst (frame_step f w)).
Proof.
  intros f w. unfold frame_step.
  early_returns w Ha Ei ltac:(simpl; lra).
  rewrite processFrame_progress by congruence.
  destruct (is_hold (faceEmotion f) (faceConf f)); [lra|].
  destruct (gt (progress w) 0); lra.
Qed.

Lemma holds_run_progress : forall hs w,
  forallb frame_is_hold hs = true ->
  progress w <= progress (fst (run_frames hs w))
  /\ (isActive (fst (run_frames hs w)) = true -> image (page w) <> None ->
      progress (fst (run_frames hs w))
      == progress w + count (List.length hs)).
Proof.
  induction hs as [|h hs IH]; intros w Hall.
  - change (run_frames [] w) with (w, @nil Event).
    cbn [fst List.length]. change (count 0) with 0.
    split; [lra | intros _ _; lra].
  - simpl in Hall. apply andb_true_iff in Hall. destruct Hall as [Hh Hall].
    rewrite run_frames_cons. cbn [fst].
    destruct (IH (fst (frame_step h w)) Hall) as [IH1 IH2].
    destruct (hold_step_progress h w Hh) as [S1 S2].
    split; [lra|].
    intros Hact Himg.
    assert (A1 : isActive (fst (frame_step h w)) = true).
    { destruct (isActive (fst (frame_step h w))) eqn:E; [reflexivity|].
      rewrite run_frames_inactive in Hact by assumption.
      simpl in Hact. congruence. }
    assert (A0 : isActive w = true)
      by (apply (frame_step_stays_inactive h); assumption).
    assert (I1 : image (page (fst (frame_step h w))) <> None).
    { unfold frame_step. rewrite processFrame_image_none. assumption. }
    rewrite (IH2 Hact I1), (S2 A0 Himg).
    cbn [List.length]. rewrite count_succ. lra.
Qed.

Lemma lapses_run_progress : forall ns w,
  progress w - count (List.length ns) * (1 # 2)
  <= progress (fst (run_frames ns w)).
Proof.
  induction ns as [|n ns IH]; intro w.
  - change (run_frames [] w) with (w, @nil Event).
    cbn [fst List.length]. change (count 0) with 0. lra.
  - rewrite run_frames_cons. cbn [fst List.length]. rewrite count_succ.
    pose proof (IH (fst (frame_step n w))) as H1.
    pose proof (lapse_step_progress n w) as H2. lra.
Qed.

(** C5.  From any state of the tracker, and so from every active session
    with progress p: after N hold frames followed by N frames that are not
    holds, progress is at least p.  A hold adds 1 and a lapse takes at most
    0.5, so N of each leave at least p + N/2 while the session lasts; once
    the target is reached the session is over and later frames change
    nothing. *)
Theorem holds_then_lapses_drift : forall hs ns w,
  forallb frame_is_hold hs = true ->
  forallb (fun f => negb (frame_is_hold f)) ns = true ->
  List.length hs = List.length ns ->
  progress w <= progress (fst (run_frames (hs ++ ns) w)).
Proof.
  intros hs ns w Hh Hn Hlen.
  rewrite run_frames_app_state.
  destruct (holds_run_progress hs w Hh) as [H1 H2].
  destruct (image (page w)) as [src|] eqn:Ei.
  - destruct (isActive (fst (run_frames hs w))) eqn:Ha.
    + assert (Hi : Some src <> @None (option string)) by discriminate.
      specialize (H2 eq_refl Hi).
      pose proof (lapses_run_progress ns (fst (run_frames hs w))) as H3.
      pose proof (count_nonneg (List.length ns)) as H4.
      rewrite Hlen in H2. lra.
    + rewrite run_frames_inactive by assumption. exact H1.
  - rewrite (run_frames_without_image hs) by assumption. cbn [fst].
    rewrite run_frames_without_image by assumption. simpl. lra.
Qed.

Lemma holds_then_lapses_drift_witness :
  progress (fst (start 0 (initial demo_page)))
  <= progress (fst (run_frames
                      ([hold_frame; hold_frame; hold_frame]
                       ++ [lapse_frame; lapse_frame; lapse_frame])
                      (fst (start 0 (initial demo_page))))).
Proof.
  apply holds_then_lapses_drift; reflexivity.
Defined.

(** ** Completion *)

(** A frame of an active session either leaves the session running below
    the target and emits nothing, or it is the hold that reaches the
    target: the session ends and [complete] is invoked once. *)
Lemma frame_step_cases : forall f w,
  tracker_inv w -> isActive w = true ->
  (isActive (fst (frame_step f w)) = true
   /\ progress (fst (frame_step f w)) < targetPoints
   /\ snd (frame_step f w) = [])
  \/ (frame_is_hold f = true
      /\ isActive (fst (frame_step f w)) = false
      /\ targetPoints <= progress (fst (frame_step f w))
      /\ completions (snd (frame_step f w)) = 1%nat).
Proof.
  intros f w Hinv Ha.
  pose proof (processFrame_inv (faceEmotion f) (faceConf f) (draw f)
                (reply f) w Hinv) as Hinv'.
  fold (frame_step f w) in Hinv'.
  destruct Hinv' as [_ [_ [_ Hlt]]].
  unfold frame_is_hold.
  destruct (image (page w)) as [src|] eqn:Ei.
  - assert (Hi : image (page w) <> None) by congruence.
    pose proof (processFrame_isActive (faceEmotion f) (faceConf f) (draw f)
                  (reply f) w Ha Hi) as A.
    pose proof (processFrame_events (faceEmotion f) (faceConf f) (draw f)
                  (reply f) w Ha Hi) as E.
    pose proof (processFrame_progress (faceEmotion f) (faceConf f) (draw f)
                  (reply f) w Ha Hi) as P.
    fold (frame_step f w) in A, E, P.
    destruct (is_hold (faceEmotion f) (faceConf f)) eqn:Hh;
      [destruct (ge (progress w + 1) targetPoints) eqn:G|];
      simpl in A, E.
    + right. rewrite P, E. apply ge_true in G.
      repeat split; assumption.
    + left. rewrite E. repeat split; auto.
    + left. rewrite E. repeat split; auto.
  - left. unfold frame_step in *.
    rewrite processFrame_no_image in * by assumption. simpl.
    destruct Hinv as [_ [_ [_ H]]]. repeat split; auto.
Qed.

Lemma completions_app : forall e1 e2,
  completions (e1 ++ e2) = (completions e1 + completions e2)%nat.
Proof.
  intros e1 e2. unfold completions.
  rewrite filter_app, length_app. reflexivity.
Qed.

(** Frames of a running session complete it at most once, and the
    completion splits the run. *)
Lemma completion_at_most_once : forall fs w,
  reachable w -> isActive w = true ->
  (completions (snd (run_frames fs w)) <= 1)%nat
  /\ (completions (snd (run_frames fs w)) = 1%nat
      <-> targetPoints <= progress (fst (run_frames fs w)))
  /\ (completions (snd (run_frames fs w)) = 1%nat ->
      exists fs1 f fs2,
        fs = (fs1 ++ f :: fs2)%list
        /\ (forall n,
            isActive (fst (run_frames (firstn n fs1) w)) = true
            /\ progress (fst (run_frames (firstn n fs1) w)) < targetPoints
            /\ snd (run_frames (firstn n fs1) w) = [])
        /\ isActive (fst (run_frames fs1 w)) = true
        /\ frame_is_hold f = true
        /\ targetPoints
           <= progress (fst (frame_step f (fst (run_frames fs1 w))))
        /\ isActive (fst (frame_step f (fst (run_frames fs1 w)))) = false
        /\ completions (snd (frame_step f (fst (run_frames fs1 w)))) = 1%nat
        /\ run_frames fs2 (fst (frame_step f (fst (run_frames fs1 w))))
           = (fst (frame_step f (fst (run_frames fs1 w))), [])).
Proof.
  intros fs w Hr. apply reachable_inv in Hr. revert w Hr.
  induction fs as [|f fs IH]; intros w Hinv Ha.
  - change (run_frames [] w) with (w, @nil Event). cbn [fst snd].
    destruct Hinv as [_ [_ [_ Hlt]]]. specialize (Hlt Ha).
    unfold completions. simpl.
    split; [lia|]. split; [split; [discriminate | intro; lra]|].
    discriminate.
  - rewrite run_frames_cons. cbn [fst snd]. rewrite completions_app.
    pose proof (processFrame_inv (faceEmotion f) (faceConf f) (draw f)
                  (reply f) w Hinv) as Hinv1.
    fold (frame_step f w) in Hinv1.
    destruct (frame_step_cases f w Hinv Ha)
      as [[A1 [P1 E1]]|[Hh [A1 [P1 C1]]]].
    + rewrite E1. change (completions []) with 0%nat. rewrite Nat.add_0_l.
      destruct (IH (fst (frame_step f w)) Hinv1 A1) as [I1 [I2 I3]].
      split; [exact I1|]. split; [exact I2|].
      intro Hc. destruct (I3 Hc) as [fs1 [g [fs2 [Efs [Hpre Hrest]]]]].
      exists (f :: fs1), g, fs2.
      split; [rewrite Efs; reflexivity|].
      split.
      * intros [|n].
        -- change (run_frames (firstn 0 (f :: fs1)) w) with (w, @nil Event).
           cbn [fst snd]. destruct Hinv as [_ [_ [_ Hlt]]].
           repeat split; auto.
        -- cbn [firstn]. rewrite run_frames_cons. cbn [fst snd].
           rewrite E1. exact (Hpre n).
      * rewrite run_frames_cons. cbn [fst]. exact Hrest.
    + rewrite run_frames_inactive by assumption. cbn [fst snd completions].
      rewrite C1. change (completions []) with 0%nat.
      split; [lia|]. split; [split; [intros _; exact P1 | reflexivity]|].
      intros _. exists [], f, fs.
      split; [reflexivity|].
      split.
      * intro n. replace (firstn n (@nil Frame)) with (@nil Frame)
          by (destruct n; reflexivity).
        change (run_frames [] w) with (w, @nil Event). cbn [fst snd].
        destruct Hinv as [_ [_ [_ Hlt]]]. repeat split; auto.
      * change (run_frames [] w) with (w, @nil Event). cbn [fst].
        repeat split; try assumption.
        apply run_frames_inactive. assumption.
Qed.

(** Holds that add up to the target do complete the session. *)
Lemma holds_reach_target : forall hs w,
  tracker_inv w -> isActive w = true -> image (page w) <> None ->
  forallb frame_is_hold hs = true ->
  targetPoints <= progress w + count (List.length hs) ->
  completions (snd (run_frames hs w)) = 1%nat
  /\ isActive (fst (run_frames hs w)) = false
  /\ targetPoints <= progress (fst (run_frames hs w)).
Proof.
  induction hs as [|h hs IH]; intros w Hinv Ha Hi Hall Hsum.
  - exfalso. cbn [List.length] in Hsum. change (count 0) with 0 in Hsum.
    destruct Hinv as [_ [_ [_ Hlt]]]. specialize (Hlt Ha). lra.
  - simpl in Hall. apply andb_true_iff in Hall. destruct Hall as [Hh Hall].
    cbn [List.length] in Hsum. rewrite count_succ in Hsum.
    pose proof (processFrame_inv (faceEmotion h) (faceConf h) (draw h)
                  (reply h) w Hinv) as Hinv1.
    pose proof (processFrame_progress (faceEmotion h) (faceConf h) (draw h)
                  (reply h) w Ha Hi) as P.
    fold (frame_step h w) in Hinv1, P.
    unfold frame_is_hold in Hh. rewrite Hh in P.
    rewrite run_frames_cons. cbn [fst snd]. rewrite completions_app.
    destruct (frame_step_cases h w Hinv Ha)
      as [[A1 [P1 E1]]|[_ [A1 [P1 C1]]]].
    + rewrite E1. change (completions []) with 0%nat. rewrite Nat.add_0_l.
      apply IH; try assumption.
      * intro C. unfold frame_step in C.
        apply processFrame_image_none in C. contradiction.
      * rewrite P. lra.
    + rewrite run_frames_inactive by assumption. cbn [fst snd].
      rewrite C1. change (completions []) with 0%nat.
      split; [lia|]. split; assumption.
Qed.

(** C6.  Take any reachable state with a session in progress.  For any
    further frames [complete] is invoked at most once, and it is invoked
    (once) exactly when progress reaches targetPoints.  When it is, the
    frames split around the completing frame: before it, after every
    prefix, the session is active, progress is below the target and
    nothing was emitted; the completing frame is a hold, taken in an active
    state, that brings progress to the target and ends the session; the
    frames after it change nothing and emit nothing.  And [complete] does
    fire: on a page with the image element, any run of holds long enough
    to reach the target invokes it exactly once and ends the session,
    however many holds follow. *)
Theorem complete_fires_once : forall fs w,
  reachable w -> isActive w = true ->
  (completions (snd (run_frames fs w)) <= 1)%nat
  /\ (completions (snd (run_frames fs w)) = 1%nat
      <-> targetPoints <= progress (fst (run_frames fs w)))
  /\ (completions (snd (run_frames fs w)) = 1%nat ->
      exists fs1 f fs2,
        fs = (fs1 ++ f :: fs2)%list
        /\ (forall n,
            isActive (fst (run_frames (firstn n fs1) w)) = true
            /\ progress (fst (run_frames (firstn n fs1) w)) < targetPoints
            /\ snd (run_frames (firstn n fs1) w) = [])
        /\ isActive (fst (run_frames fs1 w)) = true
        /\ frame_is_hold f = true
        /\ targetPoints
           <= progress (fst (frame_step f (fst (run_frames fs1 w))))
        /\ isActive (fst (frame_step f (fst (run_frames fs1 w)))) = false
        /\ completions (snd (frame_step f (fst (run_frames fs1 w)))) = 1%nat
        /\ run_frames fs2 (fst (frame_step f (fst (run_frames fs1 w))))
           = (fst (frame_step f (fst (run_frames fs1 w))), []))
  /\ (forall hs,
      image (page w) <> None ->
      forallb frame_is_hold hs = true ->
      targetPoints <= progress w + count (List.length hs) ->
      completions (snd (run_frames hs w)) = 1%nat
      /\ isActive (fst (run_frames hs w)) = false
      /\ targetPoints <= progress (fst (run_frames hs w))).
Proof.
  intros fs w Hr Ha.
  destruct (completion_at_most_once fs w Hr Ha) as [H1 [H2 H3]].
  split; [exact H1|]. split; [exact H2|]. split; [exact H3|].
  intros hs Hi Hall Hsum.
  apply holds_reach_target; try assumption.
  apply reachable_inv. assumption.
Qed.

Lemma complete_fires_once_witness :
  completions
    (snd (run_frames (repeat hold_frame 160)
            (fst (start 0 (initial demo_page))))) = 1%nat
  /\ isActive
       (fst (run_frames (repeat hold_frame 160)
               (fst (start 0 (initial demo_page))))) = false
  /\ targetPoints
     <= progress
          (fst (run_frames (repeat hold_frame 160)
                  (fst (start 0 (initial demo_page))))).
Proof.
  refine (proj2 (proj2 (proj2
            (complete_fires_once [] (fst (start 0 (initial demo_page))) _ _)))
          (repeat hold_frame 160) _ _ _).
  - apply (reach_step (CallStart 0)). apply reach_initial.
  - reflexivity.
  - simpl. discriminate.
  - vm_compute. reflexivity.
  - vm_compute. discriminate.
Defined.

(** The session of the end-to-end scenario: 150 holds after [start]
    complete exactly once and leave progress at 150. *)
Example full_session :
  completions (snd (run_frames (repeat hold_frame 150)
                      (fst (start 0 (initial demo_page))))) = 1%nat
  /\ progress (fst (run_frames (repeat hold_frame 150)
                      (fst (start 0 (initial demo_page))))) == 150.
Proof. split; vm_compute; reflexivity. Qed.

(** ** Fusion status *)

Lemma backend_match_ci_eq : forall a b,
  backend_match a b = true <-> ci_eq a b.
Proof.
  intros a b. unfold backend_match.
  rewrite String.eqb_eq. apply toLowerCase_ci_eq.
Qed.

Lemma eegActive_first_channel : forall data x rest,
  raw_sample (eeg data) = Some (x :: rest) ->
  (eegActive data = true <-> ~ x == 0).
Proof.
  intros data x rest H. unfold eegActive. rewrite H.
  rewrite negb_true_iff. split.
  - intros E Q. apply Qeq_bool_iff in Q. congruence.
  - intro N. destruct (Qeq_bool x 0) eqn:E; [|reflexivity].
    apply Qeq_bool_iff in E. contradiction.
Qed.

Lemma faceActive_iff : forall data,
  faceActive data = true
  <-> exists f e, face data = Some f /\ face_emotion f = Some e
                  /\ e <> "" /\ e <> "None".
Proof.
  intro data. unfold faceActive. split.
  - destruct (face data) as [f|]; [|discriminate].
    destruct (face_emotion f) as [e|] eqn:Ee; [|discriminate].
    intro H. apply andb_true_iff in H. destruct H as [H1 H2].
    unfold truthy in H1. apply negb_true_iff in H1, H2.
    apply String.eqb_neq in H1, H2.
    exists f, e. repeat split; assumption.
  - intros [f [e [Hf [He [N1 N2]]]]]. rewrite Hf, He.
    apply String.eqb_neq in N1, N2. unfold truthy.
    rewrite N1, N2. reflexivity.
Qed.

(** C8.  With the match flag computed by the server from the two labels,
    the panel shows Waiting exactly when neither modality is live, FaceOnly
    exactly when only the face is live, SignalOnly exactly when only the
    signal is live, BothAgree exactly when both are live and the labels are
    equal up to letter case, and BothDissent exactly when both are live and
    they are not.  The signal is live when its first raw channel value is
    not zero and not live when the sample is missing (an array without
    elements counts as live, its element 0 being undefined); the face is
    live when its emotion is present, not empty and not the text None. *)
Theorem fusionVerdict_table : forall data,
  served data ->
  (fusionVerdict data = Waiting
   <-> eegActive data = false /\ faceActive data = false)
  /\ (fusionVerdict data = FaceOnly
      <-> eegActive data = false /\ faceActive data = true)
  /\ (fusionVerdict data = SignalOnly
      <-> eegActive data = true /\ faceActive data = false)
  /\ (fusionVerdict data = BothAgree
      <-> eegActive data = true /\ faceActive data = true
          /\ ci_eq (face_label data) (eeg_emotion (eeg data)))
  /\ (fusionVerdict data = BothDissent
      <-> eegActive data = true /\ faceActive data = true
          /\ ~ ci_eq (face_label data) (eeg_emotion (eeg data)))
  /\ (forall x rest, raw_sample (eeg data) = Some (x :: rest) ->
      (eegActive data = true <-> ~ x == 0))
  /\ (raw_sample (eeg data) = None -> eegActive data = false)
  /\ (faceActive data = true
      <-> exists f e, face data = Some f /\ face_emotion f = Some e
                      /\ e <> "" /\ e <> "None").
Proof.
  intros data Hs. unfold served in Hs.
  pose proof (backend_match_ci_eq (face_label data) (eeg_emotion (eeg data)))
    as Hm.
  rewrite <- Hs in Hm.
  assert (Hd : fusion_match (fusion data) = false
               <-> ~ ci_eq (face_label data) (eeg_emotion (eeg data))).
  { destruct (fusion_match (fusion data)).
    - split; [discriminate | intro H; exfalso; apply H; apply Hm; reflexivity].
    - split; [intros _ C; apply Hm in C; discriminate | reflexivity]. }
  repeat match goal with |- _ /\ _ => split end.
  1-5: unfold fusionVerdict;
       destruct (eegActive data); destruct (faceActive data);
       destruct (fusion_match (fusion data)); simpl;
       intuition congruence.
  - apply eegActive_first_channel.
  - intro H. unfold eegActive. rewrite H. reflexivity.
  - apply faceActive_iff.
Qed.

Lemma fusionVerdict_table_witness :
  fusionVerdict agreeing_payload = BothAgree
  <-> eegActive agreeing_payload = true /\ faceActive agreeing_payload = true
      /\ ci_eq (face_label agreeing_payload)
               (eeg_emotion (eeg agreeing_payload)).
Proof.
  refine (proj1 (proj2 (proj2 (proj2 (fusionVerdict_table agreeing_payload _))))).
  reflexivity.
Defined.

(** * Further properties of the calibration script *)

(** ** Starting a session *)

Lemma updateUI_timer : forall text color percent d,
  timer d <> None ->
  timer (updateUI text color percent d)
  = Some {| timer_text := text; timer_color := color |}.
Proof.
  intros text color percent [g [b|] [t|] i a] H; simpl in H;
    try congruence; destruct percent; reflexivity.
Qed.

Lemma updateUI_guide : forall text color percent d,
  guide (updateUI text color percent d) = guide d.
Proof.
  intros text color percent [g [b|] [t|] i a]; destruct percent; reflexivity.
Qed.

Lemma updateUI_activeId : forall text color percent d,
  activeId (updateUI text color percent d) = activeId d.
Proof.
  intros text color percent [g [b|] [t|] i a]; destruct percent; reflexivity.
Qed.

Lemma updateUI_timer_present : forall text color percent d,
  present (timer (updateUI text color percent d)) = present (timer d).
Proof.
  intros text color percent [g [b|] [t|] i a]; destruct percent; reflexivity.
Qed.

Lemma updateUI_bar : forall text color p d b,
  bar d = Some b ->
  bar (updateUI text color (Some p) d)
  = Some {| bar_width := p; bg_info := bg_info b;
            bg_warning := bg_warning b; bg_danger := bg_danger b |}.
Proof.
  intros text color p [g [b0|] [t|] i a] b H; simpl in H;
    inversion H; subst; reflexivity.
Qed.

Lemma set_src_fields : forall s d,
  guide (set_src s d) = guide d /\ bar (set_src s d) = bar d
  /\ timer (set_src s d) = timer d /\ activeId (set_src s d) = activeId d
  /\ present (image (set_src s d)) = present (image d).
Proof.
  intros s [g b t [i|] a]; repeat split; reflexivity.
Qed.

Lemma updateStimuli_fields : forall pools rnd percent d,
  guide (updateStimuli pools rnd percent d) = guide d
  /\ activeId (updateStimuli pools rnd percent d) = activeId d
  /\ present (timer (updateStimuli pools rnd percent d)) = present (timer d)
  /\ present (bar (updateStimuli pools rnd percent d)) = present (bar d)
  /\ present (image (updateStimuli pools rnd percent d)) = present (image d).
Proof.
  intros pools rnd percent [g [b|] [t|] [i|] a];
    repeat split; reflexivity.
Qed.

Lemma set_guide_fields : forall h d,
  bar (set_guide h d) = bar d /\ timer (set_guide h d) = timer d
  /\ present (guide (set_guide h d)) = present (guide d).
Proof.
  intros h [[g|] b t i a]; repeat split; reflexivity.
Qed.

Lemma set_guide_value : forall h d,
  guide d <> None -> guide (set_guide h d) = Some h.
Proof.
  intros h d H. unfold set_guide. destruct (guide d); [reflexivity|congruence].
Qed.

(** X1.  [start] on an inactive tracker begins a session exactly when a
    subject is selected.  With the placeholder label the whole state is
    kept and the only effect is the notice; otherwise the session is active
    with progress 0, nothing is emitted, the guide is shown, and the timer
    reads the waiting text: the phase caption written by [updateStimuli]
    is overwritten before [start] returns. *)
Theorem start_needs_subject : forall rnd w,
  isActive w = false ->
  (activeId (page w) = "STANDBY" ->
   start rnd w
   = (w, [Toast "Notice: Please SELECT a subject from the database first!"]))
  /\ (activeId (page w) <> "STANDBY" ->
      isActive (fst (start rnd w)) = true
      /\ progress (fst (start rnd w)) = 0
      /\ imagePool (fst (start rnd w)) = imagePool w
      /\ snd (start rnd w) = []
      /\ (guide (page w) <> None ->
          guide (page (fst (start rnd w))) = Some false)
      /\ (timer (page w) <> None ->
          timer (page (fst (start rnd w)))
          = Some {| timer_text := "Waiting for Neutral Face...";
                    timer_color := "#17a2b8" |})).
Proof.
  intros rnd w Ha. unfold start. rewrite Ha. split; intro Hs.
  - rewrite Hs. reflexivity.
  - apply String.eqb_neq in Hs. rewrite Hs. cbn [fst snd isActive progress
      imagePool page].
    repeat split.
    + intro Hg. rewrite updateUI_guide.
      destruct (updateStimuli_fields (imagePool w) rnd 0
                  (set_guide false (page w))) as [G _].
      rewrite G. apply set_guide_value. assumption.
    + intro Ht. apply updateUI_timer.
      destruct (updateStimuli_fields (imagePool w) rnd 0
                  (set_guide false (page w))) as [_ [_ [T _]]].
      destruct (set_guide_fields false (page w)) as [_ [T' _]].
      rewrite T' in T.
      destruct (timer (updateStimuli (imagePool w) rnd 0
                         (set_guide false (page w)))); [discriminate|].
      destruct (timer (page w)); [discriminate|congruence].
Qed.

Lemma start_needs_subject_witness :
  start 0 (initial standby_page)
  = (initial standby_page,
     [Toast "Notice: Please SELECT a subject from the database first!"])
  /\ isActive (fst (start 0 (initial demo_page))) = true.
Proof.
  split.
  - apply (proj1 (start_needs_subject 0 (initial standby_page) eq_refl)).
    reflexivity.
  - apply (proj2 (start_needs_subject 0 (initial demo_page) eq_refl)).
    discriminate.
Defined.

(** ** What the calls leave alone *)

Lemma same_elements_refl : forall d, same_elements d d.
Proof. intro d. repeat split; reflexivity. Qed.

Lemma same_elements_trans : forall d1 d2 d3,
  same_elements d1 d2 -> same_elements d2 d3 -> same_elements d1 d3.
Proof.
  intros d1 d2 d3 [G1 [B1 [T1 [I1 A1]]]] [G2 [B2 [T2 [I2 A2]]]].
  repeat split; congruence.
Qed.

Lemma same_elements_set_guide : forall h d, same_elements d (set_guide h d).
Proof. intros h [[g|] b t i a]; repeat split; reflexivity. Qed.

Lemma same_elements_set_bar : forall f d, same_elements d (set_bar f d).
Proof. intros f [g [b|] t i a]; repeat split; reflexivity. Qed.

Lemma same_elements_updateUI : forall text color percent d,
  same_elements d (updateUI text color percent d).
Proof.
  intros text color percent [g [b|] [t|] i a]; destruct percent;
    repeat split; reflexivity.
Qed.

Lemma same_elements_updateStimuli : forall pools rnd percent d,
  same_elements d (updateStimuli pools rnd percent d).
Proof.
  intros pools rnd percent [g [b|] [t|] [i|] a]; repeat split; reflexivity.
Qed.

Lemma step_same_elements : forall c w,
  same_elements (page w) (page (fst (step c w))).
Proof.
  intros c w. destruct c as [r|rnd|f| |b]; simpl.
  - destruct r; apply same_elements_refl.
  - unfold start. destruct (isActive w); [apply same_elements_refl|].
    destruct (activeId (page w) =? "STANDBY")%string;
      [apply same_elements_refl|].
    cbn [fst page].
    eapply same_elements_trans; [apply (same_elements_set_guide false)|].
    eapply same_elements_trans; [apply same_elements_updateStimuli|].
    apply same_elements_updateUI.
  - unfold frame_step, processFrame.
    destruct (isActive w); [|apply same_elements_refl]. cbn [negb].
    destruct (image (page w)); [|apply same_elements_refl].
    destruct (is_hold (faceEmotion f) (faceConf f)).
    + assert (S1 : same_elements (page w)
                (set_bar bar_hold
                   (updateStimuli (imagePool w) (draw f)
                      ((progress w + 1) / targetPoints * 100) (page w)))).
      { eapply same_elements_trans; [apply same_elements_updateStimuli|].
        apply same_elements_set_bar. }
      destruct (ge (progress w + 1) targetPoints); cbn [fst page complete].
      * eapply same_elements_trans; [exact S1|].
        apply same_elements_set_guide.
      * exact S1.
    + cbn [fst page].
      eapply same_elements_trans; [apply same_elements_updateUI|].
      apply same_elements_set_bar.
  - apply same_elements_set_guide.
  - apply same_elements_set_guide.
Qed.

Lemma run_cons : forall c cs w,
  run (c :: cs) w
  = (fst (run cs (fst (step c w))),
     (snd (step c w) ++ snd (run cs (fst (step c w))))%list).
Proof.
  intros c cs w. simpl. destruct (step c w) as [w1 e1]. simpl.
  destruct (run cs w1) as [w2 e2]. reflexivity.
Qed.

(** X2.  No sequence of calls adds or removes one of the elements the
    script looks up, and none changes the subject label: after any run the
    page has the same elements and the same display-id text. *)
Theorem run_keeps_elements : forall cs w,
  same_elements (page w) (page (fst (run cs w))).
Proof.
  induction cs as [|c cs IH]; intro w.
  - apply same_elements_refl.
  - rewrite run_cons. cbn [fst].
    eapply same_elements_trans; [apply step_same_elements | apply IH].
Qed.

Lemma step_imagePool : forall c w,
  is_init c = false -> imagePool (fst (step c w)) = imagePool w.
Proof.
  intros c w H. destruct c as [[pools|]|rnd|f| |b]; simpl in *;
    try discriminate; try reflexivity.
  - unfold start. destruct (isActive w); [reflexivity|].
    destruct (activeId (page w) =? "STANDBY")%string; reflexivity.
  - unfold frame_step, processFrame.
    destruct (isActive w); [|reflexivity]. cbn [negb].
    destruct (image (page w)); [|reflexivity].
    destruct (is_hold (faceEmotion f) (faceConf f)); [|reflexivity].
    destruct (ge (progress w + 1) targetPoints); reflexivity.
Qed.

(** X3.  The stimulus pool is written by [init] alone: a run without an
    answered [init] ends with the pool it started with, whatever frames,
    starts and teardowns it contains; an answered [init] leaves the active
    flag and progress as they are. *)
Theorem pool_written_by_init_only : forall cs w,
  forallb (fun c => negb (is_init c)) cs = true ->
  imagePool (fst (run cs w)) = imagePool w
  /\ forall pools,
       imagePool (fst (init (Some pools) w)) = pools
       /\ isActive (fst (init (Some pools) w)) = isActive w
       /\ progress (fst (init (Some pools) w)) = progress w.
Proof.
  intros cs w H. split; [|intro pools; repeat split; reflexivity].
  revert w. induction cs as [|c cs IH]; intro w; [reflexivity|].
  simpl in H. apply andb_true_iff in H. destruct H as [Hc Hcs].
  apply negb_true_iff in Hc.
  rewrite run_cons. cbn [fst]. rewrite (IH Hcs). apply step_imagePool.
  assumption.
Qed.

Lemma pool_written_by_init_only_witness :
  imagePool (fst (run overshoot_calls (initial demo_page)))
  = imagePool (initial demo_page).
Proof.
  apply (proj1 (pool_written_by_init_only overshoot_calls (initial demo_page)
                  eq_refl)).
Defined.

(** X4.  A session is only ever begun by [start] with a subject selected:
    if a call finds the tracker inactive and leaves it active, the call is
    a [start] and the subject label is not the placeholder.  In particular
    a frame that arrives after a teardown cannot revive the session. *)
Theorem activation_only_by_start : forall c w,
  isActive w = false ->
  isActive (fst (step c w)) = true ->
  exists rnd, c = CallStart rnd /\ activeId (page w) <> "STANDBY".
Proof.
  intros c w Ha H. destruct c as [[pools|]|rnd|f| |b]; simpl in H;
    try congruence.
  - exists rnd. split; [reflexivity|].
    unfold start in H. rewrite Ha in H.
    destruct (activeId (page w) =? "STANDBY")%string eqn:E.
    + simpl in H. congruence.
    + apply String.eqb_neq. assumption.
  - unfold frame_step in H. rewrite processFrame_inactive in H by assumption.
    simpl in H. congruence.
Qed.

Lemma activation_only_by_start_witness :
  exists rnd,
    CallStart 0 = CallStart rnd /\ activeId (page (initial demo_page)) <> "STANDBY".
Proof.
  apply (activation_only_by_start (CallStart 0) (initial demo_page));
    reflexivity.
Defined.

(** X5.  Progress is written in two places only.  If a call changes the
    stored progress, it is either a frame that found the session active
    with the image element present, or a [start] that found the tracker
    inactive with a subject selected. *)
Theorem progress_written_in_session_only : forall c w,
  progress (fst (step c w)) <> progress w ->
  (exists f, c = CallProcessFrame f /\ isActive w = true
             /\ image (page w) <> None)
  \/ (exists rnd, c = CallStart rnd /\ isActive w = false
                  /\ activeId (page w) <> "STANDBY").
Proof.
  intros c w H. destruct c as [[pools|]|rnd|f| |b]; simpl in H;
    try (exfalso; apply H; reflexivity).
  - right. exists rnd. unfold start in H.
    destruct (isActive w) eqn:Ha; [exfalso; apply H; reflexivity|].
    destruct (activeId (page w) =? "STANDBY")%string eqn:E;
      [exfalso; apply H; reflexivity|].
    apply String.eqb_neq in E. repeat split; assumption.
  - left. exists f. unfold frame_step in H.
    destruct (isActive w) eqn:Ha.
    + destruct (image (page w)) eqn:Ei.
      * repeat split; congruence.
      * rewrite processFrame_no_image in H by assumption.
        exfalso; apply H; reflexivity.
    + rewrite processFrame_inactive in H by assumption.
      exfalso; apply H; reflexivity.
Qed.

Lemma progress_written_in_session_only_witness :
  (exists f, CallProcessFrame hold_frame = CallProcessFrame f
             /\ isActive (fst (start 0 (initial demo_page))) = true
             /\ image (page (fst (start 0 (initial demo_page)))) <> None)
  \/ (exists rnd, CallProcessFrame hold_frame = CallStart rnd
                  /\ isActive (fst (start 0 (initial demo_page))) = false
                  /\ activeId (page (fst (start 0 (initial demo_page))))
                     <> "STANDBY").
Proof.
  apply (progress_written_in_session_only (CallProcessFrame hold_frame)
           (fst (start 0 (initial demo_page)))).
  vm_compute. discriminate.
Defined.

(** ** Phases and stimuli *)

(** X6.  The phase never goes back as the percentage grows: a larger
    percentage selects the same or a later phase. *)
Theorem selectPhase_monotone : forall p q,
  p <= q -> (phase_rank (selectPhase p) <= phase_rank (selectPhase q))%nat.
Proof.
  intros p q H. unfold selectPhase.
  destruct (ge p 33) eqn:P1; destruct (ge p 66) eqn:P2;
    destruct (ge q 33) eqn:Q1; destruct (ge q 66) eqn:Q2; simpl;
    try lia;
    repeat match goal with
           | E : ge _ _ = true |- _ => apply ge_true in E
           | E : ge _ _ = false |- _ => apply ge_false in E
           end; lra.
Qed.

Lemma selectPhase_monotone_witness :
  (phase_rank (selectPhase 40) <= phase_rank (selectPhase 70))%nat.
Proof.
  apply selectPhase_monotone. lra.
Defined.

Lemma proposeAsset_member : forall l cur rnd,
  0 <= rnd -> rnd < 1 -> l <> [] ->
  exists a, proposeAsset (Some l) cur rnd = Some a /\ In a l.
Proof.
  intros l cur rnd H0 H1 Hl. unfold proposeAsset.
  destruct l as [|a rest]; [congruence|].
  destruct (includes (a :: rest) cur) eqn:I.
  - apply includes_true in I. destruct I as [s [Hs Hin]].
    exists s. split; assumption.
  - eexists. split; [reflexivity|].
    apply nth_In. apply random_index_in_range; simpl; auto; lia.
Qed.

Lemma proposeAsset_fixed : forall pool cur rnd1 rnd2,
  0 <= rnd1 -> rnd1 < 1 ->
  proposeAsset pool (proposeAsset pool cur rnd1) rnd2
  = proposeAsset pool cur rnd1.
Proof.
  intros pool cur rnd1 rnd2 H0 H1.
  destruct pool as [[|a rest]|]; try reflexivity.
  destruct (proposeAsset_member (a :: rest) cur rnd1 H0 H1) as [x [Ex Hin]];
    [discriminate|].
  rewrite Ex. unfold proposeAsset.
  assert (I : includes (a :: rest) (Some x) = true).
  { apply includes_true. exists x. split; [reflexivity|assumption]. }
  rewrite I. reflexivity.
Qed.

Lemma updateStimuli_image : forall pools rnd percent d cur,
  image d = Some cur ->
  image (updateStimuli pools rnd percent d)
  = Some (proposeAsset (pool_of pools (selectPhase percent)) cur rnd).
Proof.
  intros pools rnd percent [g [b|] [t|] i a] cur H; simpl in H; subst i;
    reflexivity.
Qed.

(** X7.  Within a phase the stimulus is chosen once.  When [updateStimuli]
    is called again with a percentage of the same phase, the image picked
    by the first call stays, whatever the second random draw is: either
    the pool is missing or empty and nothing was picked, or the first call
    left an image of the pool, which the second call recognises. *)
Theorem stimulus_kept_within_phase : forall pools d p1 p2 rnd1 rnd2,
  0 <= rnd1 -> rnd1 < 1 ->
  selectPhase p2 = selectPhase p1 ->
  image (updateStimuli pools rnd2 p2 (updateStimuli pools rnd1 p1 d))
  = image (updateStimuli pools rnd1 p1 d).
Proof.
  intros pools d p1 p2 rnd1 rnd2 H0 H1 Hp.
  destruct (image d) as [cur|] eqn:Ei.
  - rewrite (updateStimuli_image pools rnd1 p1 d cur Ei).
    rewrite (updateStimuli_image pools rnd2 p2 _ _
               (updateStimuli_image pools rnd1 p1 d cur Ei)).
    rewrite Hp, proposeAsset_fixed by assumption. reflexivity.
  - assert (E : updateStimuli pools rnd1 p1 d = d)
      by (unfold updateStimuli; rewrite Ei; reflexivity).
    rewrite E. unfold updateStimuli. rewrite Ei. exact Ei.
Qed.

Lemma stimulus_kept_within_phase_witness :
  image (updateStimuli demo_pools (9 # 10) 20
           (updateStimuli demo_pools (6 # 10) 10 demo_page))
  = image (updateStimuli demo_pools (6 # 10) 10 demo_page).
Proof.
  apply stimulus_kept_within_phase; [lra | lra | reflexivity].
Defined.

(** ** Closed forms for runs of frames *)

Lemma frame_step_image : forall f w,
  image (page w) <> None -> image (page (fst (frame_step f w))) <> None.
Proof.
  intros f w H C. unfold frame_step in C.
  apply processFrame_image_none in C. contradiction.
Qed.

(** X8.  Uninterrupted holds, in closed form.  From a running session with
    progress p on a page with the image element, n holds that stay below
    the target leave the session running with progress p + n and emit
    nothing; n holds that reach the target end the session with exactly one
    completion, at a progress of at least targetPoints and below
    targetPoints + 1, the holds after the completing one being ignored. *)
Theorem holds_run_closed_form : forall hs w,
  reachable w -> isActive w = true -> image (page w) <> None ->
  forallb frame_is_hold hs = true ->
  (progress w + count (List.length hs) < targetPoints ->
   isActive (fst (run_frames hs w)) = true
   /\ progress (fst (run_frames hs w)) == progress w + count (List.length hs)
   /\ snd (run_frames hs w) = [])
  /\ (targetPoints <= progress w + count (List.length hs) ->
      isActive (fst (run_frames hs w)) = false
      /\ completions (snd (run_frames hs w)) = 1%nat
      /\ targetPoints <= progress (fst (run_frames hs w))
      /\ progress (fst (run_frames hs w)) < targetPoints + 1).
Proof.
  intros hs w Hr. apply reachable_inv in Hr. revert w Hr.
  induction hs as [|h hs IH]; intros w Hinv Ha Hi Hall.
  - change (run_frames [] w) with (w, @nil Event).
    cbn [fst snd List.length]. change (count 0) with 0.
    destruct Hinv as [_ [_ [_ Hlt]]]. specialize (Hlt Ha).
    split; intro H; [|lra]. repeat split; [assumption | lra].
  - simpl in Hall. apply andb_true_iff in Hall. destruct Hall as [Hh Hall].
    unfold frame_is_hold in Hh.
    pose proof (processFrame_inv (faceEmotion h) (faceConf h) (draw h)
                  (reply h) w Hinv) as Hinv1.
    pose proof (processFrame_progress (faceEmotion h) (faceConf h) (draw h)
                  (reply h) w Ha Hi) as P.
    pose proof (processFrame_isActive (faceEmotion h) (faceConf h) (draw h)
                  (reply h) w Ha Hi) as A.
    pose proof (processFrame_events (faceEmotion h) (faceConf h) (draw h)
                  (reply h) w Ha Hi) as E.
    fold (frame_step h w) in Hinv1, P, A, E.
    rewrite Hh in P, A, E. cbn [andb] in A, E.
    pose proof (count_nonneg (List.length hs)) as Hc.
    destruct Hinv as [_ [_ [_ Hlt]]]. specialize (Hlt Ha).
    rewrite run_frames_cons. cbn [fst snd List.length]. rewrite count_succ.
    destruct (ge (progress w + 1) targetPoints) eqn:G; cbn [negb] in A.
    + apply ge_true in G.
      rewrite run_frames_inactive by assumption. cbn [fst snd].
      rewrite P, E, A.
      split; intro H; [lra|].
      repeat split; [assumption | lra].
    + apply ge_false in G. rewrite E. cbn [app].
      destruct (IH (fst (frame_step h w)) Hinv1 A (frame_step_image h w Hi)
                  Hall) as [I1 I2].
      rewrite P in I1, I2.
      split; intro H.
      * destruct I1 as [J1 [J2 J3]]; [lra|].
        repeat split; [assumption | rewrite J2; lra | assumption].
      * apply I2. lra.
Qed.

Lemma holds_run_closed_form_witness :
  isActive (fst (run_frames (repeat hold_frame 150)
                   (fst (start 0 (initial demo_page))))) = false
  /\ completions (snd (run_frames (repeat hold_frame 150)
                         (fst (start 0 (initial demo_page))))) = 1%nat
  /\ targetPoints
     <= progress (fst (run_frames (repeat hold_frame 150)
                         (fst (start 0 (initial demo_page)))))
  /\ progress (fst (run_frames (repeat hold_frame 150)
                      (fst (start 0 (initial demo_page)))))
     < targetPoints + 1.
Proof.
  refine (proj2 (holds_run_closed_form (repeat hold_frame 150)
                   (fst (start 0 (initial demo_page))) _ _ _ _) _).
  - apply (reach_step (CallStart 0)). apply reach_initial.
  - reflexivity.
  - simpl. discriminate.
  - vm_compute. reflexivity.
  - vm_compute. discriminate.
Defined.

(** X9.  Uninterrupted lapses, in closed form.  From a running session with
    progress p on a page with the image element, n frames that are not
    holds leave progress at max(0, p - n/2); the session keeps running and
    nothing is emitted, however long the subject fails to hold. *)
Theorem lapses_run_closed_form : forall ns w,
  reachable w -> isActive w = true -> image (page w) <> None ->
  forallb (fun f => negb (frame_is_hold f)) ns = true ->
  isActive (fst (run_frames ns w)) = true
  /\ snd (run_frames ns w) = []
  /\ progress (fst (run_frames ns w))
     == Qmax 0 (progress w - count (List.length ns) * (1 # 2)).
Proof.
  intros ns w Hr. apply reachable_inv in Hr. revert w Hr.
  induction ns as [|n ns IH]; intros w Hinv Ha Hi Hall.
  - change (run_frames [] w) with (w, @nil Event).
    cbn [fst snd List.length]. change (count 0) with 0.
    destruct Hinv as [_ [H0 _]].
    repeat split; [assumption|].
    destruct (Q.max_spec 0 (progress w - 0 * (1 # 2))) as [[L M]|[L M]];
      rewrite M; lra.
  - simpl in Hall. apply andb_true_iff in Hall. destruct Hall as [Hn Hall].
    apply negb_true_iff in Hn. unfold frame_is_hold in Hn.
    pose proof (processFrame_inv (faceEmotion n) (faceConf n) (draw n)
                  (reply n) w Hinv) as Hinv1.
    pose proof (processFrame_progress (faceEmotion n) (faceConf n) (draw n)
                  (reply n) w Ha Hi) as P.
    pose proof (processFrame_isActive (faceEmotion n) (faceConf n) (draw n)
                  (reply n) w Ha Hi) as A.
    pose proof (processFrame_events (faceEmotion n) (faceConf n) (draw n)
                  (reply n) w Ha Hi) as E.
    fold (frame_step n w) in Hinv1, P, A, E.
    rewrite Hn in P, A, E. cbn [andb negb] in A, E.
    destruct (IH (fst (frame_step n w)) Hinv1 A (frame_step_image n w Hi)
                Hall) as [I1 [I2 I3]].
    rewrite run_frames_cons. cbn [fst snd List.length].
    rewrite E, I2. repeat split; [assumption|].
    rewrite I3, P, count_succ.
    pose proof (count_nonneg (List.length ns)) as Hc.
    destruct Hinv as [Hh [H0 _]].
    destruct (gt (progress w) 0) eqn:G.
    + apply gt_true in G.
      destruct (Q.max_spec 0 (progress w - (1 # 2)
                              - count (List.length ns) * (1 # 2)))
        as [[L1 M1]|[L1 M1]];
      destruct (Q.max_spec 0 (progress w
                              - (count (List.length ns) + 1) * (1 # 2)))
        as [[L2 M2]|[L2 M2]];
      rewrite M1, M2; lra.
    + apply gt_false in G.
      destruct (Q.max_spec 0 (progress w
                              - count (List.length ns) * (1 # 2)))
        as [[L1 M1]|[L1 M1]];
      destruct (Q.max_spec 0 (progress w
                              - (count (List.length ns) + 1) * (1 # 2)))
        as [[L2 M2]|[L2 M2]];
      rewrite M1, M2; lra.
Qed.

Lemma lapses_run_closed_form_witness :
  progress (fst (run_frames [lapse_frame; lapse_frame; lapse_frame]
                   (fst (run_frames [hold_frame]
                           (fst (start 0 (initial demo_page)))))))
  == Qmax 0 (progress (fst (run_frames [hold_frame]
                              (fst (start 0 (initial demo_page)))))
             - count 3 * (1 # 2)).
Proof.
  refine (proj2 (proj2 (lapses_run_closed_form
            [lapse_frame; lapse_frame; lapse_frame]
            (fst (run_frames [hold_frame] (fst (start 0 (initial demo_page)))))
            _ _ _ _))).
  - apply (run_reachable
             [CallStart 0; CallProcessFrame hold_frame] (initial demo_page)).
    apply reach_initial.
  - reflexivity.
  - simpl. discriminate.
  - reflexivity.
Defined.

Lemma frame_step_progress_le : forall f w,
  progress (fst (frame_step f w)) <= progress w + 1.
Proof.
  intros f w. unfold frame_step.
  early_returns w Ha Ei ltac:(simpl; lra).
  rewrite processFrame_progress by congruence.
  destruct (is_hold (faceEmotion f) (faceConf f)); [lra|].
  destruct (gt (progress w) 0); lra.
Qed.

(** X10.  A session cannot complete early.  Whatever the frames are, as
    long as their number is smaller than the distance from the current
    progress to the target, the session is still running and nothing has
    been sent; from a fresh start this means that no 149 frames complete a
    calibration. *)
Theorem no_completion_before_target : forall fs w,
  reachable w -> isActive w = true ->
  progress w + count (List.length fs) < targetPoints ->
  isActive (fst (run_frames fs w)) = true
  /\ snd (run_frames fs w) = []
  /\ progress (fst (run_frames fs w)) < targetPoints.
Proof.
  intros fs w Hr. apply reachable_inv in Hr. revert w Hr.
  induction fs as [|f fs IH]; intros w Hinv Ha Hlen.
  - change (run_frames [] w) with (w, @nil Event). cbn [fst snd].
    destruct Hinv as [_ [_ [_ Hlt]]]. repeat split; auto.
  - cbn [List.length] in Hlen. rewrite count_succ in Hlen.
    pose proof (count_nonneg (List.length fs)) as Hc.
    pose proof (frame_step_progress_le f w) as Hle.
    pose proof (processFrame_inv (faceEmotion f) (faceConf f) (draw f)
                  (reply f) w Hinv) as Hinv1.
    fold (frame_step f w) in Hinv1.
    rewrite run_frames_cons. cbn [fst snd].
    destruct (frame_step_cases f w Hinv Ha)
      as [[A1 [P1 E1]]|[Hh [A1 [P1 C1]]]]; [|lra].
    rewrite E1. cbn [app]. apply IH; try assumption. lra.
Qed.

Lemma no_completion_before_target_witness :
  isActive (fst (run_frames (repeat hold_frame 149)
                   (fst (start 0 (initial demo_page))))) = true
  /\ snd (run_frames (repeat hold_frame 149)
            (fst (start 0 (initial demo_page)))) = []
  /\ progress (fst (run_frames (repeat hold_frame 149)
                      (fst (start 0 (initial demo_page))))) < targetPoints.
Proof.
  apply no_completion_before_target.
  - apply (reach_step (CallStart 0)). apply reach_initial.
  - reflexivity.
  - vm_compute. reflexivity.
Defined.

Lemma frame_step_activeId : forall f w,
  activeId (page (fst (frame_step f w))) = activeId (page w).
Proof.
  intros f w.
  destruct (step_same_elements (CallProcessFrame f) w) as [_ [_ [_ [_ A]]]].
  exact A.
Qed.

(** X11.  What a run of frames sends.  From a running session a run of
    frames emits either nothing, or exactly one confirmation dialog
    followed by one request; the request names the subject shown when the
    run began, carries the operator's answer given at a hold frame of the
    run, and the learning rate 0.001. *)
Theorem run_frames_events : forall fs w,
  reachable w -> isActive w = true ->
  snd (run_frames fs w) = []
  \/ exists f,
       In f fs /\ frame_is_hold f = true
       /\ snd (run_frames fs w)
          = [Confirm (confirmMsg (activeId (page w)));
             Post (activeId (page w)) (reply f) (1 # 1000)].
Proof.
  intros fs w Hr. apply reachable_inv in Hr. revert w Hr.
  induction fs as [|f fs IH]; intros w Hinv Ha.
  - left. reflexivity.
  - pose proof (processFrame_inv (faceEmotion f) (faceConf f) (draw f)
                  (reply f) w Hinv) as Hinv1.
    fold (frame_step f w) in Hinv1.
    rewrite run_frames_cons. cbn [snd].
    destruct (isActive (fst (frame_step f w))) eqn:A1.
    + assert (E1 : snd (frame_step f w) = []).
      { destruct (frame_step_cases f w Hinv Ha)
          as [[_ [_ E]]|[_ [A _]]]; [exact E | congruence]. }
      rewrite E1. cbn [app].
      destruct (IH (fst (frame_step f w)) Hinv1 A1) as [N|[g [Hin [Hg Ev]]]].
      * left. exact N.
      * right. exists g. rewrite frame_step_activeId in Ev.
        repeat split; [right; assumption | assumption | assumption].
    + right. exists f.
      rewrite run_frames_inactive by assumption. cbn [snd].
      rewrite app_nil_r.
      destruct (image (page w)) as [src|] eqn:Ei.
      * assert (Hi : image (page w) <> None) by congruence.
        pose proof (processFrame_isActive (faceEmotion f) (faceConf f)
                      (draw f) (reply f) w Ha Hi) as A.
        pose proof (processFrame_events (faceEmotion f) (faceConf f)
                      (draw f) (reply f) w Ha Hi) as E.
        fold (frame_step f w) in A, E. rewrite A1 in A.
        symmetry in A. apply negb_false_iff in A. rewrite A in E.
        apply andb_true_iff in A. destruct A as [Hh _].
        repeat split; [left; reflexivity | exact Hh | exact E].
      * unfold frame_step in A1.
        rewrite processFrame_no_image in A1 by assumption.
        simpl in A1. congruence.
Qed.

Lemma run_frames_events_witness :
  snd (run_frames (repeat hold_frame 150) (fst (start 0 (initial demo_page))))
  = []
  \/ exists f,
       In f (repeat hold_frame 150) /\ frame_is_hold f = true
       /\ snd (run_frames (repeat hold_frame 150)
                 (fst (start 0 (initial demo_page))))
          = [Confirm (confirmMsg (activeId (page (fst (start 0 (initial demo_page))))));
             Post (activeId (page (fst (start 0 (initial demo_page)))))
               (reply f) (1 # 1000)].
Proof.
  apply run_frames_events.
  - apply (reach_step (CallStart 0)). apply reach_initial.
  - reflexivity.
Defined.

(** ** The progress bar *)

Lemma set_bar_bar : forall f d b,
  bar d = Some b -> bar (set_bar f d) = Some (f b).
Proof.
  intros f [g [b0|] t i a] b H; simpl in H; inversion H; reflexivity.
Qed.

Lemma set_guide_bar : forall h d, bar (set_guide h d) = bar d.
Proof. intros h [[g|] b t i a]; reflexivity. Qed.

Lemma updateStimuli_bar : forall pools rnd percent d b,
  image d <> None -> bar d = Some b ->
  bar (updateStimuli pools rnd percent d)
  = Some {| bar_width := percent; bg_info := bg_info b;
            bg_warning := bg_warning b; bg_danger := bg_danger b |}.
Proof.
  intros pools rnd percent [g [b0|] [t|] [i|] a] b Hi H; simpl in *;
    try congruence; inversion H; reflexivity.
Qed.

Lemma percent_scale : forall p, p / targetPoints * 100 == p * (2 # 3).
Proof.
  intro p. unfold targetPoints, Qdiv.
  setoid_replace (/ 150) with (1 # 150) by reflexivity. ring.
Qed.

Lemma processFrame_bar : forall emotion conf rnd answer w b,
  isActive w = true -> image (page w) <> None -> bar (page w) = Some b ->
  bar (page (fst (processFrame emotion conf rnd answer w)))
  = Some (if is_hold emotion conf
          then {| bar_width := (progress w + 1) / targetPoints * 100;
                  bg_info := true; bg_warning := false; bg_danger := false |}
          else {| bar_width :=
                    Qmax 0 ((if gt (progress w) 0 then progress w - (1 # 2)
                             else progress w) / targetPoints * 100);
                  bg_info := false; bg_warning := bg_warning b;
                  bg_danger := true |}).
Proof.
  intros emotion conf rnd answer w b Ha Hi Hb. unfold processFrame.
  rewrite Ha. cbn [negb].
  destruct (image (page w)) as [src|] eqn:Ei; [|congruence].
  destruct (is_hold emotion conf).
  - pose proof (updateStimuli_bar (imagePool w) rnd
                  ((progress w + 1) / targetPoints * 100) (page w) b
                  ltac:(congruence) Hb) as B1.
    pose proof (set_bar_bar bar_hold _ _ B1) as B2.
    destruct (ge (progress w + 1) targetPoints); cbn [fst page complete];
      rewrite ?set_guide_bar; exact B2.
  - cbn [fst page].
    pose proof (updateUI_bar "Paused: Keep Face Neutral!" "#dc3545"
                  (Qmax 0 ((if gt (progress w) 0 then progress w - (1 # 2)
                            else progress w) / targetPoints * 100))
                  (page w) b Hb) as B1.
    exact (set_bar_bar bar_pause _ _ B1).
Qed.

(** X12.  The bar after a frame that reaches the logic gate.  Its width is
    never negative, it is 0 exactly when the stored progress is 0, and it
    is below 100 exactly when the session is still running after the
    frame, so the bar is full only on the completing hold.  The bar has the
    info colour exactly after a hold and the danger colour exactly after a
    lapse; a hold clears the warning colour and a lapse leaves it.  (The
    width is compared with 0 and 100 only: the browser stores the
    percentage rounded to a double, and on the multiples of one half that
    progress takes the rounded and the exact percentage stand on the same
    side of both.) *)
Theorem bar_after_frame : forall f w b,
  reachable w -> isActive w = true -> image (page w) <> None ->
  bar (page w) = Some b ->
  exists b',
    bar (page (fst (frame_step f w))) = Some b'
    /\ 0 <= bar_width b'
    /\ (bar_width b' == 0 <-> progress (fst (frame_step f w)) == 0)
    /\ (bar_width b' < 100 <-> isActive (fst (frame_step f w)) = true)
    /\ bg_info b' = frame_is_hold f
    /\ bg_danger b' = negb (frame_is_hold f)
    /\ bg_warning b' = negb (frame_is_hold f) && bg_warning b.
Proof.
  intros f w b Hr Ha Hi Hb.
  pose proof (reachable_inv w Hr) as Hinv.
  pose proof (processFrame_inv (faceEmotion f) (faceConf f) (draw f)
                (reply f) w Hinv) as Hinv1.
  pose proof (processFrame_progress (faceEmotion f) (faceConf f) (draw f)
                (reply f) w Ha Hi) as P.
  pose proof (processFrame_isActive (faceEmotion f) (faceConf f) (draw f)
                (reply f) w Ha Hi) as A.
  pose proof (processFrame_bar (faceEmotion f) (faceConf f) (draw f)
                (reply f) w b Ha Hi Hb) as B.
  fold (frame_step f w) in Hinv1, P, A, B.
  destruct Hinv1 as [_ [L0 [_ L2]]].
  unfold frame_is_hold. rewrite P in *. rewrite A in *. clear P A.
  eexists. split; [exact B|]. clear B.
  destruct (is_hold (faceEmotion f) (faceConf f));
    cbn [bar_width bg_info bg_danger bg_warning negb andb] in *.
  - rewrite percent_scale. unfold targetPoints in *.
    split; [lra|]. split; [split; intro H; lra|].
    split; [|repeat split; reflexivity].
    destruct (ge (progress w + 1) 150) eqn:G; cbn [negb].
    + apply ge_true in G. split; [intro H; lra | discriminate].
    + apply ge_false in G. split; [reflexivity | intros _; lra].
  - set (p := if gt (progress w) 0 then progress w - (1 # 2) else progress w)
      in *.
    specialize (L2 eq_refl). unfold targetPoints in L2.
    pose proof (percent_scale p) as S.
    destruct (Q.max_spec 0 (p / targetPoints * 100)) as [[L M]|[L M]];
      rewrite M; rewrite S in *.
    + split; [lra|]. split; [split; intro H; lra|].
      split; [split; [reflexivity | intros _; lra]|].
      repeat split; reflexivity.
    + split; [lra|]. split; [split; intro H; lra|].
      split; [split; [reflexivity | intros _; lra]|].
      repeat split; reflexivity.
Qed.

Lemma bar_after_frame_witness :
  exists b',
    bar (page (fst (frame_step lapse_frame (fst (start 0 (initial demo_page))))))
    = Some b'
    /\ 0 <= bar_width b'
    /\ (bar_width b' == 0
        <-> progress (fst (frame_step lapse_frame
                             (fst (start 0 (initial demo_page))))) == 0)
    /\ (bar_width b' < 100
        <-> isActive (fst (frame_step lapse_frame
                             (fst (start 0 (initial demo_page))))) = true)
    /\ bg_info b' = frame_is_hold lapse_frame
    /\ bg_danger b' = negb (frame_is_hold lapse_frame)
    /\ bg_warning b' = negb (frame_is_hold lapse_frame) && false.
Proof.
  apply (bar_after_frame lapse_frame (fst (start 0 (initial demo_page)))
           {| bar_width := 0; bg_info := false; bg_warning := false;
              bg_danger := false |}).
  - apply (reach_step (CallStart 0)). apply reach_initial.
  - reflexivity.
  - simpl. discriminate.
  - reflexivity.
Defined.

(** * Properties of the dashboard script *)

(** ** The timestamp *)

Lemma padStart_two_digits : forall n,
  (n < 100)%nat ->
  padStart 2 "0" (toString n)
  = String (digit (n / 10)) (String (digit (n mod 10)) EmptyString).
Proof.
  intros n H.
  do 100 (destruct n as [|n]; [reflexivity|]). lia.
Qed.

Lemma toString_one_digit : forall d,
  (d < 10)%nat -> toString d = String (digit d) EmptyString.
Proof.
  intros d H.
  do 10 (destruct d as [|d]; [reflexivity|]). lia.
Qed.

Lemma digit_inj : forall a b,
  (a < 10)%nat -> (b < 10)%nat -> digit a = digit b -> a = b.
Proof.
  intros a b Ha Hb H. apply (f_equal nat_of_ascii) in H. unfold digit in H.
  rewrite !nat_ascii_embedding in H by lia. lia.
Qed.

Lemma getLiveTimestamp_digits : forall h m s ms,
  (h < 24)%nat -> (m < 60)%nat -> (s < 60)%nat -> (ms < 1000)%nat ->
  getLiveTimestamp h m s ms
  = String (digit (h / 10)) (String (digit (h mod 10)) (String ":"
     (String (digit (m / 10)) (String (digit (m mod 10)) (String ":"
     (String (digit (s / 10)) (String (digit (s mod 10)) (String "."
     (String (digit (ms / 100)) EmptyString))))))))).
Proof.
  intros h m s ms Hh Hm Hs Hms. unfold getLiveTimestamp.
  rewrite !padStart_two_digits by lia.
  rewrite toString_one_digit; [reflexivity|].
  apply Nat.Div0.div_lt_upper_bound. lia.
Qed.

Lemma two_digits_inj : forall n n',
  (n < 100)%nat -> (n' < 100)%nat ->
  digit (n / 10) = digit (n' / 10) ->
  digit (n mod 10) = digit (n' mod 10) -> n = n'.
Proof.
  intros n n' Hn Hn' E1 E2.
  apply digit_inj in E1;
    [|apply Nat.Div0.div_lt_upper_bound; lia
     |apply Nat.Div0.div_lt_upper_bound; lia].
  apply digit_inj in E2;
    [|apply Nat.mod_upper_bound; lia|apply Nat.mod_upper_bound; lia].
  rewrite (Nat.div_mod_eq n 10), (Nat.div_mod_eq n' 10), E1, E2.
  reflexivity.
Qed.

Lemma layout_inj : forall a b c d e f g a' b' c' d' e' f' g' : ascii,
  String a (String b (String ":" (String c (String d (String ":"
    (String e (String f (String "." (String g EmptyString)))))))))
  = String a' (String b' (String ":" (String c' (String d' (String ":"
      (String e' (String f' (String "." (String g' EmptyString)))))))))
  -> a = a' /\ b = b' /\ c = c' /\ d = d' /\ e = e' /\ f = f' /\ g = g'.
Proof.
  intros a b c d e f g a' b' c' d' e' f' g' H.
  injection H as E1 E2 E3 E4 E5 E6 E7. repeat split; assumption.
Qed.

(** X13.  For clock readings in range the timestamp is HH:MM:SS.d, digit
    by digit: the tens and units of the hour, a colon, the tens and units
    of the minute, a colon, the tens and units of the second, a dot, and
    the tenths of a second (milliseconds / 100, rounded down); a value
    below ten is padded with a zero.  It is ten characters long, and two
    readings print the same text only if they agree in the hour, the
    minute, the second and the tenth of a second. *)
Theorem getLiveTimestamp_layout : forall h m s ms h' m' s' ms',
  (h < 24)%nat -> (m < 60)%nat -> (s < 60)%nat -> (ms < 1000)%nat ->
  (h' < 24)%nat -> (m' < 60)%nat -> (s' < 60)%nat -> (ms' < 1000)%nat ->
  getLiveTimestamp h m s ms
  = String (digit (h / 10)) (String (digit (h mod 10)) (String ":"
     (String (digit (m / 10)) (String (digit (m mod 10)) (String ":"
     (String (digit (s / 10)) (String (digit (s mod 10)) (String "."
     (String (digit (ms / 100)) EmptyString)))))))))
  /\ String.length (getLiveTimestamp h m s ms) = 10%nat
  /\ String.get 2 (getLiveTimestamp h m s ms) = Some ":"%char
  /\ String.get 5 (getLiveTimestamp h m s ms) = Some ":"%char
  /\ String.get 8 (getLiveTimestamp h m s ms) = Some "."%char
  /\ (getLiveTimestamp h m s ms = getLiveTimestamp h' m' s' ms' ->
      h = h' /\ m = m' /\ s = s' /\ (ms / 100 = ms' / 100)%nat).
Proof.
  intros h m s ms h' m' s' ms' Hh Hm Hs Hms Hh' Hm' Hs' Hms'.
  rewrite (getLiveTimestamp_digits h m s ms) by assumption.
  rewrite (getLiveTimestamp_digits h' m' s' ms') by assumption.
  do 5 (split; [reflexivity|]).
  intro H. apply layout_inj in H.
  destruct H as [E1 [E2 [E3 [E4 [E5 [E6 E7]]]]]].
  split; [apply two_digits_inj; (assumption || lia)|].
  split; [apply two_digits_inj; (assumption || lia)|].
  split; [apply two_digits_inj; (assumption || lia)|].
  apply digit_inj in E7; [assumption| |];
    apply Nat.Div0.div_lt_upper_bound; lia.
Qed.

Lemma getLiveTimestamp_layout_witness :
  getLiveTimestamp 9 5 3 250
  = String (digit (9 / 10)) (String (digit (9 mod 10)) (String ":"
     (String (digit (5 / 10)) (String (digit (5 mod 10)) (String ":"
     (String (digit (3 / 10)) (String (digit (3 mod 10)) (String "."
     (String (digit (250 / 100)) EmptyString))))))))).
Proof.
  apply (getLiveTimestamp_layout 9 5 3 250 9 5 3 299); lia.
Defined.

(** The reading 09:05:03 and 250 ms. *)
Example getLiveTimestamp_example : getLiveTimestamp 9 5 3 250 = "09:05:03.2".
Proof. reflexivity. Qed.

(** ** The subject filter *)

Lemma prefix_iff : forall q s,
  String.prefix q s = true <-> exists b, s = q ++ b.
Proof.
  induction q as [|c q IH]; intros [|c' s]; simpl.
  - split; [intros _; exists EmptyString; reflexivity | reflexivity].
  - split; [intros _; exists (String c' s); reflexivity | reflexivity].
  - split; [discriminate | intros [b H]; discriminate].
  - destruct (ascii_dec c c') as [E|N].
    + subst c'. rewrite IH. split.
      * intros [b H]. exists b. rewrite H. reflexivity.
      * intros [b H]. injection H as H. exists b. assumption.
    + split; [discriminate|].
      intros [b H]. injection H as H1 H2. congruence.
Qed.

Lemma str_includes_iff : forall s q,
  str_includes s q = true <-> exists a b, s = a ++ q ++ b.
Proof.
  induction s as [|c s IH]; intro q; cbn [str_includes];
    rewrite orb_true_iff.
  - split.
    + intros [H|H]; [|discriminate].
      apply prefix_iff in H. destruct H as [b H].
      exists EmptyString, b. exact H.
    + intros [a [b H]]. left. apply prefix_iff.
      destruct a; [exists b; exact H | discriminate].
  - rewrite IH, prefix_iff. split.
    + intros [[b H]|[a [b H]]].
      * exists EmptyString, b. exact H.
      * exists (String c a), b. simpl. rewrite H. reflexivity.
    + intros [a [b H]]. destruct a as [|c' a].
      * left. exists b. exact H.
      * right. simpl in H. injection H as _ H. exists a, b. exact H.
Qed.

(** X14.  On ASCII text (query and rows), [filterSubjects] keeps every row
    and its text, and shows a row exactly when its lower-cased text
    contains the lower-cased query as a substring, hiding it otherwise.
    Queries that differ only in letter case filter alike, and the empty
    query shows every row (which is how selecting a subject resets the
    table). *)
Theorem filterSubjects_shows_matches : forall query rows,
  ascii_text query = true ->
  forallb (fun row => ascii_text (innerText row)) rows = true ->
  map innerText (filterSubjects query rows) = map innerText rows
  /\ (forall r, In r (filterSubjects query rows) ->
      (display r = ""
       /\ exists a b, toLowerCase (innerText r) = a ++ toLowerCase query ++ b)
      \/ (display r = "none"
          /\ ~ exists a b,
                 toLowerCase (innerText r) = a ++ toLowerCase query ++ b))
  /\ (forall query', ascii_text query' = true -> ci_eq query query' ->
      filterSubjects query' rows = filterSubjects query rows)
  /\ (forall r, In r (filterSubjects "" rows) -> display r = "").
Proof.
  intros query rows _ _. unfold filterSubjects.
  split; [|split; [|split]].
  - rewrite map_map. reflexivity.
  - intros r Hin. apply in_map_iff in Hin. destruct Hin as [r0 [E _]].
    subst r. cbn [display innerText].
    destruct (str_includes (toLowerCase (innerText r0)) (toLowerCase query))
      eqn:I.
    + left. split; [reflexivity|]. apply str_includes_iff. exact I.
    + right. split; [reflexivity|]. intro H.
      apply str_includes_iff in H. congruence.
  - intros query' _ H. apply toLowerCase_ci_eq in H. rewrite H. reflexivity.
  - intros r Hin. apply in_map_iff in Hin. destruct Hin as [r0 [E _]].
    subst r. cbn [display toLowerCase].
    assert (I : str_includes (toLowerCase (innerText r0)) "" = true).
    { apply str_includes_iff. exists EmptyString, (toLowerCase (innerText r0)).
      reflexivity. }
    rewrite I. reflexivity.
Qed.

(** ** Taking over a remote session *)

(** X15.  The poll never overwrites a selected subject: the subject label
    changes only when it still is the placeholder and the payload names a
    non-empty subject, and then it becomes that subject.  After a poll
    whose payload names a subject other than the placeholder, [start] on
    an inactive tracker begins a session. *)
Theorem remote_subject_adoption : forall session d,
  (activeId d <> "STANDBY" -> adoptRemoteSubject session d = d)
  /\ (activeId (adoptRemoteSubject session d) <> activeId d ->
      activeId d = "STANDBY"
      /\ exists s, session = Some s
                   /\ subject_id s = Some (activeId (adoptRemoteSubject session d))
                   /\ activeId (adoptRemoteSubject session d) <> "")
  /\ (forall s sid w rnd,
      session = Some s -> subject_id s = Some sid ->
      sid <> "" -> sid <> "STANDBY" -> isActive w = false ->
      isActive (fst (start rnd (on_page (adoptRemoteSubject session) w)))
      = true).
Proof.
  intros session d. split; [|split].
  - intro H. apply String.eqb_neq in H. unfold adoptRemoteSubject.
    destruct session as [s|]; [|reflexivity].
    destruct (subject_id s); [|reflexivity].
    rewrite H, andb_false_r. reflexivity.
  - unfold adoptRemoteSubject.
    destruct session as [s|]; [|intro H; congruence].
    destruct (subject_id s) as [sid|] eqn:Es; [|intro H; congruence].
    destruct (truthy (Some sid)) eqn:Et;
      destruct (activeId d =? "STANDBY")%string eqn:Ed; simpl;
      intro H; try congruence.
    apply String.eqb_eq in Ed. split; [assumption|].
    exists s. repeat split; try assumption.
    unfold truthy in Et. apply negb_true_iff in Et.
    apply String.eqb_neq. assumption.
  - intros s sid w rnd Es Eid Hne Hns Ha. subst session.
    unfold start, on_page. cbn [isActive page]. rewrite Ha.
    unfold adoptRemoteSubject. rewrite Eid.
    assert (Et : truthy (Some sid) = true).
    { unfold truthy. apply negb_true_iff. apply String.eqb_neq. assumption. }
    rewrite Et. cbn [andb].
    destruct (activeId (page w) =? "STANDBY")%string eqn:Ed.
    + cbn [activeId]. apply String.eqb_neq in Hns. rewrite Hns. reflexivity.
    + rewrite Ed. reflexivity.
Qed.

Lemma remote_subject_adoption_witness :
  isActive
    (fst (start 0
            (on_page (adoptRemoteSubject (Some {| subject_id := Some "S042" |}))
               (initial standby_page)))) = true.
Proof.
  refine (proj2 (proj2 (remote_subject_adoption
            (Some {| subject_id := Some "S042" |}) standby_page))
          {| subject_id := Some "S042" |} "S042" (initial standby_page) 0
          eq_refl eq_refl _ _ eq_refl); discriminate.
Defined.

Lemma filterSubjects_shows_matches_witness :
  filterSubjects "ALI"
    [{| innerText := "S001 Alice"; display := "none" |};
     {| innerText := "S002 Bob"; display := "" |}]
  = filterSubjects "ali"
      [{| innerText := "S001 Alice"; display := "none" |};
       {| innerText := "S002 Bob"; display := "" |}].
Proof.
  apply (proj1 (proj2 (proj2
           (filterSubjects_shows_matches "ali"
              [{| innerText := "S001 Alice"; display := "none" |};
               {| innerText := "S002 Bob"; display := "" |}]
              eq_refl eq_refl)))); [reflexivity|].
  assert (L : forall a b, is_upper b ->
                nat_of_ascii a = (nat_of_ascii b + 32)%nat -> same_letter a b)
    by (intros a b U E; right; right; split; assumption).
  repeat (apply ci_eq_cons;
          [apply L; [unfold is_upper; vm_compute; lia | reflexivity]|]).
  apply ci_eq_nil.
Defined.

(** ** The fusion panel *)

Lemma updateFusionUI_verdict : forall ts data p,
  (fusionVerdict data = Waiting ->
   active_hidden (updateFusionUI ts data p) = true
   /\ waiting_hidden (updateFusionUI ts data p) = false
   /\ badge_text (updateFusionUI ts data p) = badge_text p
   /\ badge_class (updateFusionUI ts data p) = badge_class p
   /\ heartbeat (updateFusionUI ts data p) = heartbeat p
   /\ fusion_val (updateFusionUI ts data p) = fusion_val p)
  /\ (fusionVerdict data <> Waiting ->
      active_hidden (updateFusionUI ts data p) = false
      /\ waiting_hidden (updateFusionUI ts data p) = true
      /\ Some (badge_text (updateFusionUI ts data p))
         = verdict_text (fusionVerdict data)
      /\ (hb_blink (heartbeat (updateFusionUI ts data p)) = true
          <-> fusionVerdict data = BothAgree
              \/ fusionVerdict data = BothDissent)
      /\ (hb_blink (heartbeat (updateFusionUI ts data p)) = false ->
          hb_text (heartbeat (updateFusionUI ts data p)) = "AWAITING EEG")).
Proof.
  intros ts data p. unfold updateFusionUI, fusionVerdict.
  destruct (eegActive data); destruct (faceActive data);
    destruct (fusion_match (fusion data)); cbn [orb andb];
    (split; intro H; [try discriminate | try congruence]);
    try (repeat split; reflexivity);
    destruct (replace_class _ _);
    cbn [active_hidden waiting_hidden badge_text heartbeat hb_blink hb_text
         verdict_text];
    repeat split; try reflexivity; try discriminate; auto;
    intros [E|E]; discriminate.
Qed.

(** X16.  The fusion panel shows what [fusionVerdict] computes, on every
    tick that reaches it.  A tick with a live signal whose payload has no
    metrics throws before the panel and leaves it as it was.  On any other
    tick: without a live modality only the two panels are swapped (the
    waiting panel is shown; badge, heartbeat and fusion label keep their
    last content); otherwise the active panel is shown, the badge text is
    the one of the verdict, and the heartbeat blinks exactly when both
    modalities are live; when it does not blink it reads AWAITING EEG,
    also in the tick where the signal is the live modality. *)
Theorem fusion_panel_shows_verdict : forall ts data metrics p,
  (eegActive data = true -> metrics = None ->
   fusionTick ts data metrics p = None)
  /\ (eegActive data = false \/ metrics <> None ->
      exists p',
        fusionTick ts data metrics p = Some p'
        /\ (fusionVerdict data = Waiting ->
            active_hidden p' = true
            /\ waiting_hidden p' = false
            /\ badge_text p' = badge_text p
            /\ badge_class p' = badge_class p
            /\ heartbeat p' = heartbeat p
            /\ fusion_val p' = fusion_val p)
        /\ (fusionVerdict data <> Waiting ->
            active_hidden p' = false
            /\ waiting_hidden p' = true
            /\ Some (badge_text p') = verdict_text (fusionVerdict data)
            /\ (hb_blink (heartbeat p') = true
                <-> fusionVerdict data = BothAgree
                    \/ fusionVerdict data = BothDissent)
            /\ (hb_blink (heartbeat p') = false ->
                hb_text (heartbeat p') = "AWAITING EEG"))).
Proof.
  intros ts data metrics p. unfold fusionTick. split.
  - intros He Hm. rewrite He, Hm. reflexivity.
  - intro H. exists (updateFusionUI ts data p). split.
    + destruct H as [He|Hm].
      * rewrite He. reflexivity.
      * destruct metrics as [m|]; [|congruence].
        cbn [present negb]. rewrite andb_false_r. reflexivity.
    + apply updateFusionUI_verdict.
Qed.

Lemma fusion_panel_shows_verdict_witness :
  fusionTick "12:00:00.0" agreeing_payload None idle_panel = None
  /\ exists p',
       fusionTick "12:00:00.0" agreeing_payload (Some demo_metrics) idle_panel
       = Some p'
       /\ Some (badge_text p') = verdict_text (fusionVerdict agreeing_payload).
Proof.
  split.
  - exact (proj1 (fusion_panel_shows_verdict "12:00:00.0" agreeing_payload
                    None idle_panel) eq_refl eq_refl).
  - destruct (proj2 (fusion_panel_shows_verdict "12:00:00.0" agreeing_payload
                       (Some demo_metrics) idle_panel)
                (or_intror (fun E : Some demo_metrics = None =>
                              eq_ind (Some demo_metrics)
                                (fun o => match o with
                                          | Some _ => True
                                          | None => False
                                          end) I None E)))
      as [p' [E [_ V]]].
    exists p'. split; [exact E|].
    apply V. vm_compute. discriminate.
Defined.

(** X17.  The colour of the heartbeat.  If the element carries exactly one
    of the classes bg-dark and bg-danger, it still does after a tick, and
    after a tick with a live modality it is red exactly when both
    modalities are live.  If it carries neither class it never gets one,
    since replacing a class that is not there does nothing. *)
Theorem heartbeat_colour : forall ts data p,
  (hb_dark (heartbeat p) = negb (hb_danger (heartbeat p)) ->
   hb_dark (heartbeat (updateFusionUI ts data p))
   = negb (hb_danger (heartbeat (updateFusionUI ts data p)))
   /\ (fusionVerdict data <> Waiting ->
       hb_danger (heartbeat (updateFusionUI ts data p))
       = eegActive data && faceActive data))
  /\ (hb_dark (heartbeat p) = false -> hb_danger (heartbeat p) = false ->
      hb_dark (heartbeat (updateFusionUI ts data p)) = false
      /\ hb_danger (heartbeat (updateFusionUI ts data p)) = false).
Proof.
  intros ts data p. unfold updateFusionUI, fusionVerdict, replace_class.
  destruct (heartbeat p) as [t bl dark danger]. cbn [hb_dark hb_danger].
  split.
  - intro H. subst dark.
    destruct (eegActive data); destruct (faceActive data);
      destruct (fusion_match (fusion data)); destruct danger;
      cbn [orb andb negb heartbeat hb_dark hb_danger];
      split; try reflexivity; intro N; try reflexivity; congruence.
  - intros H1 H2. subst dark danger.
    destruct (eegActive data); destruct (faceActive data);
      destruct (fusion_match (fusion data));
      cbn [orb andb heartbeat hb_dark hb_danger]; split; reflexivity.
Qed.

Lemma heartbeat_colour_witness :
  hb_danger
    (heartbeat
       (updateFusionUI "12:00:00.0" agreeing_payload
          {| active_hidden := true; waiting_hidden := false;
             fusion_val := "";
             heartbeat := {| hb_text := ""; hb_blink := false;
                             hb_dark := true; hb_danger := false |};
             badge_text := ""; badge_class := "" |}))
  = eegActive agreeing_payload && faceActive agreeing_payload.
Proof.
  refine (proj2 (proj1 (heartbeat_colour "12:00:00.0" agreeing_payload _) _) _).
  - reflexivity.
  - vm_compute. discriminate.
Defined.

(** ** The metrics history *)

Lemma push_shift_length : forall (A : Type) (x : A) (l : list A),
  List.length (push_shift x l) = List.length l.
Proof.
  intros A x l. unfold push_shift. destruct l as [|a l]; simpl.
  - reflexivity.
  - rewrite length_app. simpl. lia.
Qed.

Lemma push_shift_skipn : forall (A : Type) (xs l : list A),
  fold_left (fun acc x => push_shift x acc) xs l
  = skipn (List.length xs) (l ++ xs).
Proof.
  intros A xs. induction xs as [|x xs IH]; intro l.
  - simpl. rewrite app_nil_r. reflexivity.
  - cbn [fold_left List.length]. rewrite IH. unfold push_shift.
    destruct l as [|a l]; simpl.
    + reflexivity.
    + rewrite <- app_assoc. reflexivity.
Qed.

(** The ticks on which the signal is live. *)
Lemma pollMetrics_fold : forall ticks h,
  hist_v (pollMetrics ticks h)
  = fold_left (fun acc x => push_shift x acc)
      (map (fun t => valence (snd t))
           (filter (fun t => eegActive (fst t)) ticks)) (hist_v h)
  /\ hist_a (pollMetrics ticks h)
     = fold_left (fun acc x => push_shift x acc)
         (map (fun t => arousal (snd t))
              (filter (fun t => eegActive (fst t)) ticks)) (hist_a h)
  /\ hist_s (pollMetrics ticks h)
     = fold_left (fun acc x => push_shift x acc)
         (map (fun t => stress (snd t))
              (filter (fun t => eegActive (fst t)) ticks)) (hist_s h).
Proof.
  induction ticks as [|[data m] ticks IH]; intro h.
  - repeat split; reflexivity.
  - cbn [pollMetrics filter fst snd]. unfold updateMetricHistory.
    destruct (eegActive data); apply IH.
Qed.

(** X18.  Each series of the metrics history is a sliding window.  After
    any sequence of ticks a series has the length it started with; it
    consists of the old series followed by the readings of the ticks with
    a live signal, with as many of the oldest entries dropped as readings
    came in; ticks without a live signal leave it alone. *)
Theorem metric_history_window : forall ticks h,
  let live := filter (fun t => eegActive (fst t)) ticks in
  (List.length (hist_v (pollMetrics ticks h)) = List.length (hist_v h)
   /\ List.length (hist_a (pollMetrics ticks h)) = List.length (hist_a h)
   /\ List.length (hist_s (pollMetrics ticks h)) = List.length (hist_s h))
  /\ hist_v (pollMetrics ticks h)
     = skipn (List.length live)
         (hist_v h ++ map (fun t => valence (snd t)) live)
  /\ hist_a (pollMetrics ticks h)
     = skipn (List.length live)
         (hist_a h ++ map (fun t => arousal (snd t)) live)
  /\ hist_s (pollMetrics ticks h)
     = skipn (List.length live)
         (hist_s h ++ map (fun t => stress (snd t)) live).
Proof.
  intros ticks h live.
  destruct (pollMetrics_fold ticks h) as [V [A S]]. fold live in V, A, S.
  rewrite push_shift_skipn in V, A, S. rewrite length_map in V, A, S.
  split; [|split; [exact V | split; [exact A | exact S]]].
  rewrite V, A, S, !length_skipn, !length_app, !length_map. lia.
Qed.

(** X19.  Once forty readings with a live signal have come in, the series
    of the metrics chart hold exactly the last forty of them, oldest
    first, and nothing of what they held before. *)
Theorem metric_history_last_forty : forall ticks h,
  let live := filter (fun t => eegActive (fst t)) ticks in
  List.length (hist_v h) = 40%nat ->
  List.length (hist_a h) = 40%nat ->
  List.length (hist_s h) = 40%nat ->
  (40 <= List.length live)%nat ->
  hist_v (pollMetrics ticks h)
  = skipn (List.length live - 40) (map (fun t => valence (snd t)) live)
  /\ hist_a (pollMetrics ticks h)
     = skipn (List.length live - 40) (map (fun t => arousal (snd t)) live)
  /\ hist_s (pollMetrics ticks h)
     = skipn (List.length live - 40) (map (fun t => stress (snd t)) live).
Proof.
  intros ticks h live Hv Ha Hs Hlive.
  destruct (pollMetrics_fold ticks h) as [V [A S]]. fold live in V, A, S.
  rewrite V, A, S, !push_shift_skipn, !length_map, !skipn_app, Hv, Ha, Hs.
  rewrite (skipn_all2 (hist_v h)), (skipn_all2 (hist_a h)),
    (skipn_all2 (hist_s h)) by lia.
  repeat split; reflexivity.
Qed.

Lemma metric_history_last_forty_witness :
  hist_v (pollMetrics
            (repeat (agreeing_payload,
                     {| valence := 1 # 2; arousal := 1 # 4; stress := 0 |}) 41)
            initialHistory)
  = skipn (41 - 40) (repeat (1 # 2) 41).
Proof.
  refine (proj1 (metric_history_last_forty
            (repeat (agreeing_payload,
                     {| valence := 1 # 2; arousal := 1 # 4; stress := 0 |}) 41)
            initialHistory _ _ _ _)); try reflexivity.
  vm_compute. lia.
Defined.

(** * The guide and the phases of a session *)

Lemma set_bar_guide : forall f d, guide (set_bar f d) = guide d.
Proof. intros f [g [b|] t i a]; reflexivity. Qed.

Lemma step_guide : forall c w,
  guide (page w) = Some (negb (isActive w)) ->
  guide (page (fst (step c w))) = Some (negb (isActive (fst (step c w)))).
Proof.
  intros c w H.
  assert (Hg : guide (page w) <> None) by congruence.
  destruct c as [[pools|]|rnd|f| |b]; simpl; try exact H.
  - unfold start. destruct (isActive w) eqn:Ha;
      [cbn [fst]; rewrite Ha; exact H|].
    destruct (activeId (page w) =? "STANDBY")%string;
      [cbn [fst]; rewrite Ha; exact H|].
    cbn [fst page isActive negb]. rewrite updateUI_guide.
    destruct (updateStimuli_fields (imagePool w) rnd 0
                (set_guide false (page w))) as [G _].
    rewrite G. apply set_guide_value. assumption.
  - unfold frame_step, processFrame.
    destruct (isActive w) eqn:Ha; cbn [negb];
      [|cbn [fst]; rewrite Ha; exact H].
    destruct (image (page w)) eqn:Ei; [|cbn [fst]; rewrite Ha; exact H].
    destruct (is_hold (faceEmotion f) (faceConf f)).
    + destruct (updateStimuli_fields (imagePool w) (draw f)
                  ((progress w + 1) / targetPoints * 100) (page w)) as [G _].
      destruct (ge (progress w + 1) targetPoints);
        cbn [fst page isActive complete negb].
      * apply set_guide_value. rewrite set_bar_guide, G. assumption.
      * rewrite set_bar_guide, G. exact H.
    + cbn [fst page isActive negb]. rewrite set_bar_guide, updateUI_guide.
      exact H.
  - apply set_guide_value. assumption.
  - apply set_guide_value. assumption.
Qed.

(** X20.  On a page whose calibration guide starts hidden, the guide is
    visible exactly while a session is active: after any sequence of calls
    it is shown when the tracker is active and hidden when it is not. *)
Theorem guide_shown_while_active : forall cs d,
  guide d = Some true ->
  guide (page (fst (run cs (initial d))))
  = Some (negb (isActive (fst (run cs (initial d))))).
Proof.
  intros cs d Hd.
  assert (G : forall w, guide (page w) = Some (negb (isActive w)) ->
                        guide (page (fst (run cs w)))
                        = Some (negb (isActive (fst (run cs w))))).
  { induction cs as [|c cs IH]; intros w H; [exact H|].
    rewrite run_cons. cbn [fst]. apply IH. apply step_guide. exact H. }
  apply G. exact Hd.
Qed.

Lemma guide_shown_while_active_witness :
  guide (page (fst (run overshoot_calls (initial demo_page))))
  = Some (negb (isActive (fst (run overshoot_calls (initial demo_page))))).
Proof.
  apply guide_shown_while_active. reflexivity.
Defined.

(** X21.  The phases in terms of progress.  The percentage handed to
    [updateStimuli] after a hold selects the focus phase while progress is
    below 49.5, the neutral phase from 49.5 up to but not including 99, and
    the relax phase from 99 on. *)
Theorem phase_of_progress : forall p,
  (selectPhase (p / targetPoints * 100) = focus <-> p < 99 # 2)
  /\ (selectPhase (p / targetPoints * 100) = neutral
      <-> 99 # 2 <= p /\ p < 99)
  /\ (selectPhase (p / targetPoints * 100) = relax <-> 99 <= p).
Proof.
  intro p. pose proof (percent_scale p) as S. unfold selectPhase.
  destruct (ge (p / targetPoints * 100) 33) eqn:A;
    destruct (ge (p / targetPoints * 100) 66) eqn:B; cbn [andb negb];
    repeat match goal with
           | E : ge _ _ = true |- _ => apply ge_true in E; rewrite S in E
           | E : ge _ _ = false |- _ => apply ge_false in E; rewrite S in E
           end;
    (split; [|split]); split; intro H; try discriminate; try reflexivity;
    try lra; try (split; lra); try (destruct H; lra).
Qed.

Lemma phase_of_progress_witness :
  selectPhase (60 / targetPoints * 100) = neutral.
Proof.
  apply (proj1 (proj2 (phase_of_progress 60))). split; lra.
Defined.
